(** * PEX reactor (p2p/pex_reactor.go): a shallow embedding and its properties

    The reactor talks to three collaborators that live outside the file under
    study: the address book, the switch (connection manager) and the peers.
    Their calls are kept as typed events of a small free monad; a handler
    supplies the answers and every call is logged in a trace, so that
    statements such as "no reply is sent" or "the seeds are dialed once" are
    statements about traces.  The reactor's own mutable store, the
    [msgCountByPeer] map, is interpreted concretely as a [gmap]. *)

From Stdlib Require Import ZArith Lia List Bool.
From stdpp Require Import base option list strings gmap.

Local Open Scope Z_scope.

(* ------------------------------------------------------------------------- *)
(** ** Machine integers *)

(** Go's [int] on the 64-bit targets the node is built for: two's complement
    with silent wrap-around. *)
Definition int_wrap (z : Z) : Z := (z + 2 ^ 63) mod 2 ^ 64 - 2 ^ 63.

Definition max_int : Z := 2 ^ 63 - 1.

(** [uint16] arithmetic wraps modulo 65536. *)
Definition uint16_wrap (z : Z) : Z := z mod 65536.

(** [cmn.MinInt]. *)
Definition MinInt (a b : Z) : Z := if a <? b then a else b.

(* ------------------------------------------------------------------------- *)
(** ** Constants *)

Definition PexChannel : Byte.byte := Byte.x00.
Definition minNumOutboundPeers : Z := 10.
Definition maxPexMessageSize : Z := 1048576.
Definition defaultMaxMsgCountByPeer : Z := 1000.
Definition defaultEnsurePeersPeriod : Z := 30 * 1000000000.

Definition msgTypeRequest : Byte.byte := Byte.x01.
Definition msgTypeAddrs : Byte.byte := Byte.x02.

(* ------------------------------------------------------------------------- *)
(** ** Data model *)

(** [type ID string]. *)
Abbreviation ID := string (only parsing).

(** A network address; the reactor only ever looks at its [ID]. *)
Record NetAddress : Type := mkNetAddress {
  addr_ID : ID;
  addr_IP : string;
  addr_Port : Z
}.

(** A [*NetAddress] may be nil. *)
Abbreviation NetAddressPtr := (option NetAddress) (only parsing).

(** The [Peer] interface as far as the reactor uses it: the direction of the
    connection and the address of [NodeInfo().NetAddress()].  [Send] is an
    event, see below. *)
Record Peer : Type := mkPeer {
  IsOutbound : bool;
  NodeInfo_NetAddress : NetAddress
}.

(** [PexMessage] is [interface{}]: besides the two registered concrete types
    it may hold anything else, nil included. *)
Inductive PexMessage : Type :=
| pexRequestMessage
| pexAddrsMessage (Addrs : list NetAddressPtr)
| pexOtherValue.

(** Go [error] values; [cmn.ErrAlreadyStarted] is compared by identity. *)
Inductive error : Type :=
| ErrAlreadyStarted
| ErrOther (msg : string).

Definition is_ErrAlreadyStarted (e : error) : bool :=
  match e with ErrAlreadyStarted => true | ErrOther _ => false end.

Record PEXReactorConfig : Type := mkConfig {
  Seeds : list string
}.

(** The fields of [PEXReactor] held by value.  [book] and [Switch] are the
    collaborators behind the events; [msgCountByPeer] points to the shared
    counter map of the run state. *)
Record PEXReactor : Type := mkPEXReactor {
  config : PEXReactorConfig;
  ensurePeersPeriod : Z;
  maxMsgCountByPeer : Z
}.

(** The goroutines the reactor starts. *)
Inductive goroutine : Type :=
| go_ensurePeersRoutine
| go_flushMsgCountByPeer
| go_dial (picked : NetAddress).

(* ------------------------------------------------------------------------- *)
(** ** Calls to the collaborators *)

Inductive extE : Type -> Type :=
(* BaseReactor / logger *)
| BaseReactor_OnStart : extE (option error)
| BaseReactor_OnStop : extE unit
| Logger_Error (msg : string) : extE unit
| Logger_Info (msg : string) : extE unit
| Logger_Debug (msg : string) : extE unit
(* address book *)
| Book_Start : extE (option error)
| Book_Stop : extE unit
| Book_NeedMoreAddrs : extE bool
| Book_GetSelection : extE (list NetAddressPtr)
| Book_PickAddress (newBias : Z) : extE NetAddressPtr
| Book_AddAddress (addr src : NetAddress) : extE unit
| Book_MarkAttempt (addr : NetAddress) : extE unit
(* switch *)
| Switch_NumPeers : extE (Z * Z * Z)
| Switch_IsDialing (id : ID) : extE bool
| Switch_Peers_Has (id : ID) : extE bool
| Switch_Peers_List : extE (list Peer)
| Switch_DialPeerWithAddress (addr : NetAddress) (persistent : bool)
    : extE (option error)
| Switch_DialPeersAsync (seeds : list string) (persistent : bool) : extE unit
(* peer *)
| Peer_Send (p : Peer) (chID : Byte.byte) (msg : PexMessage) : extE bool
(* runtime *)
| rand_Int : extE Z
| Go (g : goroutine) : extE unit.

(** Operations of the [cmn.CMap] behind [msgCountByPeer]; [Get] yields nil
    for a missing key. *)
Inductive cmapE : Type -> Type :=
| CMap_Get (key : string) : cmapE (option Z)
| CMap_Set (key : string) (value : Z) : cmapE unit
| CMap_Clear : cmapE unit.

(** Programs: return, run-time panic, a call to a collaborator, or an
    operation on the counter map. *)
Inductive Prog (A : Type) : Type :=
| Ret (a : A)
| Panic (msg : string)
| Call {X : Type} (e : extE X) (k : X -> Prog A)
| Store {X : Type} (o : cmapE X) (k : X -> Prog A).

Arguments Ret {A} a.
Arguments Panic {A} msg.
Arguments Call {A X} e k.
Arguments Store {A X} o k.

Fixpoint bind {A B : Type} (p : Prog A) (f : A -> Prog B) : Prog B :=
  match p with
  | Ret a => f a
  | Panic m => Panic m
  | Call e k => Call e (fun x => bind (k x) f)
  | Store o k => Store o (fun x => bind (k x) f)
  end.

Definition call {X : Type} (e : extE X) : Prog X := Call e Ret.
Definition store {X : Type} (o : cmapE X) : Prog X := Store o Ret.

(** stdpp's monad notation: [x ← c; k] and [c;; k]. *)
#[global] Instance Prog_ret : MRet Prog := fun A a => Ret a.
#[global] Instance Prog_bind : MBind Prog := fun A B f p => bind p f.

(** One logged call together with the answer it got. *)
Inductive Event : Type :=
| Ev {X : Type} (e : extE X) (x : X).

Inductive Outcome (A : Type) : Type :=
| Done (a : A)
| Panicked (msg : string).

Arguments Done {A} a.
Arguments Panicked {A} msg.

(* ------------------------------------------------------------------------- *)
(** ** Running a program *)

Section Run.

(** The state of the collaborators and the way they answer. *)
Context {W : Type}.
Variable handler : forall X : Type, extE X -> W -> X * W.

Record State : Type := mkState {
  msgCountByPeer : gmap string Z;
  world : W
}.

Definition cmap_step {X : Type} (o : cmapE X) (m : gmap string Z)
  : X * gmap string Z :=
  match o in cmapE T return T * gmap string Z with
  | CMap_Get key => (m !! key, m)
  | CMap_Set key value => (tt, <[key := value]> m)
  | CMap_Clear => (tt, ∅)
  end.

Fixpoint run {A : Type} (p : Prog A) (s : State)
  : Outcome A * State * list Event :=
  match p with
  | Ret a => (Done a, s, [])
  | Panic m => (Panicked m, s, [])
  | Call e k =>
      let '(x, w') := handler _ e (world s) in
      let '(o, s', t) := run (k x) (mkState (msgCountByPeer s) w') in
      (o, s', Ev e x :: t)
  | Store op k =>
      let '(x, m') := cmap_step op (msgCountByPeer s) in
      run (k x) (mkState m' (world s))
  end.

End Run.

Arguments State W : clear implicits.
Arguments mkState {W} _ _.
Arguments msgCountByPeer {W} _.
Arguments world {W} _.

(* ------------------------------------------------------------------------- *)
(** ** The reactor *)

Local Open Scope string_scope.
Local Open Scope list_scope.
Local Open Scope Z_scope.

Section Reactor.

(** [wire.ReadBinary] of go-wire, specialised to [struct{ PexMessage }] and
    a reader over the given bytes: the decoded value and the error it left
    in [err].  The library is not part of the repository; the reactor is
    verified for every such function. *)
Variable wire_ReadBinary : list Byte.byte -> Z -> PexMessage * option error.

Definition NewPEXReactor (config : PEXReactorConfig) : PEXReactor :=
  {| config := config;
     ensurePeersPeriod := defaultEnsurePeersPeriod;
     maxMsgCountByPeer := defaultMaxMsgCountByPeer |}.

Definition OnStart (r : PEXReactor) : Prog (option error) :=
  err ← call BaseReactor_OnStart;
  match err with
  | Some e => Ret (Some e)
  | None =>
      err ← call Book_Start;
      match err with
      | Some e =>
          if negb (is_ErrAlreadyStarted e) then Ret (Some e)
          else
            call (Go go_ensurePeersRoutine);;
            call (Go go_flushMsgCountByPeer);;
            Ret None
      | None =>
          call (Go go_ensurePeersRoutine);;
          call (Go go_flushMsgCountByPeer);;
          Ret None
      end
  end.

Definition OnStop (r : PEXReactor) : Prog unit :=
  call BaseReactor_OnStop;;
  call Book_Stop.

Definition RequestPEX (r : PEXReactor) (p : Peer) : Prog unit :=
  call (Peer_Send p PexChannel pexRequestMessage);;
  Ret tt.

Definition SendAddrs (r : PEXReactor) (p : Peer)
    (netAddrs : list NetAddressPtr) : Prog unit :=
  call (Peer_Send p PexChannel (pexAddrsMessage netAddrs));;
  Ret tt.

Definition AddPeer (r : PEXReactor) (p : Peer) : Prog unit :=
  if IsOutbound p then
    need ← call Book_NeedMoreAddrs;
    if need : bool then RequestPEX r p else Ret tt
  else
    let addr := NodeInfo_NetAddress p in
    call (Book_AddAddress addr addr).

Definition RemovePeer (r : PEXReactor) (p : Peer) : Prog unit := Ret tt.

Definition SetEnsurePeersPeriod (r : PEXReactor) (d : Z) : PEXReactor :=
  {| config := config r;
     ensurePeersPeriod := d;
     maxMsgCountByPeer := maxMsgCountByPeer r |}.

Definition SetMaxMsgCountByPeer (r : PEXReactor) (v : Z) : PEXReactor :=
  {| config := config r;
     ensurePeersPeriod := ensurePeersPeriod r;
     maxMsgCountByPeer := v |}.

(** The type assertion [.(uint16)] panics on the nil of a missing key. *)
Definition ReachedMaxMsgCountForPeer (r : PEXReactor) (peerID : ID)
  : Prog bool :=
  countI ← store (CMap_Get peerID);
  match countI with
  | Some count => Ret (maxMsgCountByPeer r <=? count)
  | None => Panic "interface conversion: interface {} is nil, not uint16"
  end.

Definition IncrementMsgCountForPeer (r : PEXReactor) (peerID : ID)
  : Prog unit :=
  countI ← store (CMap_Get peerID);
  let count := match countI with Some c => c | None => 0 end in
  let count := uint16_wrap (count + 1) in
  store (CMap_Set peerID count).

(** [bz[0]] comes first and panics on an empty slice. *)
Definition DecodeMessage (bz : list Byte.byte)
  : Prog (Byte.byte * PexMessage * option error) :=
  match bz with
  | [] => Panic "index out of range"
  | msgType :: _ =>
      let '(msg, err) := wire_ReadBinary bz maxPexMessageSize in
      Ret (msgType, msg, err)
  end.

(** [for _, netAddr := range msg.Addrs]. *)
Fixpoint Receive_addrs (addrs : list NetAddressPtr) (srcAddr : NetAddress)
  : Prog unit :=
  match addrs with
  | [] => Ret tt
  | netAddr :: rest =>
      match netAddr with
      | Some a => call (Book_AddAddress a srcAddr)
      | None => Ret tt
      end;;
      Receive_addrs rest srcAddr
  end.

(** [Receive] from the call of [DecodeMessage] on, reached only when the
    rate limiter lets the message through. *)
Definition Receive_dispatch (r : PEXReactor) (src : Peer)
    (msgBytes : list Byte.byte) : Prog unit :=
  let srcAddr := NodeInfo_NetAddress src in
  '(_, msg, err) ← DecodeMessage msgBytes;
  match err with
  | Some _ => call (Logger_Error "Error decoding message")
  | None =>
      call (Logger_Debug "Received message");;
      match msg with
      | pexRequestMessage =>
          sel ← call Book_GetSelection;
          SendAddrs r src sel
      | pexAddrsMessage Addrs => Receive_addrs Addrs srcAddr
      | pexOtherValue => call (Logger_Error "Unknown message type")
      end
  end.

Definition Receive (r : PEXReactor) (chID : Byte.byte) (src : Peer)
    (msgBytes : list Byte.byte) : Prog unit :=
  let srcAddr := NodeInfo_NetAddress src in
  IncrementMsgCountForPeer r (addr_ID srcAddr);;
  reached ← ReachedMaxMsgCountForPeer r (addr_ID srcAddr);
  if reached : bool then
    call (Logger_Error "Maximum number of messages reached for peer")
  else Receive_dispatch r src msgBytes.

(** The bias handed to the picker, [cmn.MinInt(numOutPeers, 8)*10 + 10]. *)
Definition newBias (numOutPeers : Z) : Z :=
  int_wrap (int_wrap (MinInt numOutPeers 8 * 10) + 10).

(** [for i := 0; i < maxAttempts && len(toDial) < numToDial; i++].
    The counter [i] occurs in the guard only, so the recursion is on the
    attempts left, [maxAttempts - i]. *)
Fixpoint pickLoop (attemptsLeft : nat) (numToDial bias : Z)
    (toDial : gmap string NetAddress) : Prog (gmap string NetAddress) :=
  match attemptsLeft with
  | O => Ret toDial
  | S attemptsLeft' =>
      if Z.of_nat (size toDial) <? numToDial then
        try ← call (Book_PickAddress bias);
        match try with
        | None => pickLoop attemptsLeft' numToDial bias toDial
        | Some a =>
            match toDial !! addr_ID a with
            | Some _ => pickLoop attemptsLeft' numToDial bias toDial
            | None =>
                dialling ← call (Switch_IsDialing (addr_ID a));
                if dialling : bool then
                  pickLoop attemptsLeft' numToDial bias toDial
                else
                  connected ← call (Switch_Peers_Has (addr_ID a));
                  if connected : bool then
                    pickLoop attemptsLeft' numToDial bias toDial
                  else
                    call (Logger_Info "Will dial address");;
                    pickLoop attemptsLeft' numToDial bias
                      (<[addr_ID a := a]> toDial)
            end
        end
      else Ret toDial
  end.


(** [for _, item := range toDial { go func(picked) {...}(item) }]. *)
Fixpoint dialPicked (items : list NetAddress) : Prog unit :=
  match items with
  | [] => Ret tt
  | item :: rest => call (Go (go_dial item));; dialPicked rest
  end.

(** "If we need more addresses, pick a random peer and ask for more."
    [rand.Int()] is reduced with Go's truncating [%]. *)
Definition ensurePeers_askForMore (r : PEXReactor) : Prog unit :=
  need ← call Book_NeedMoreAddrs;
  if need : bool then
    peers ← call Switch_Peers_List;
    let peersCount := Z.of_nat (length peers) in
    if 0 <? peersCount then
      rnd ← call rand_Int;
      let idx := Z.rem rnd peersCount in
      if idx <? 0 then Panic "index out of range"
      else
        match peers !! Z.to_nat idx with
        | Some peer =>
            call (Logger_Info
              "We need more addresses. Sending pexRequest to random peer");;
            RequestPEX r peer
        | None => Panic "index out of range"
        end
    else Ret tt
  else Ret tt.

(** "If we are not connected to nor dialing anybody, fallback to dialing
    seeds." *)
Definition ensurePeers_dialSeeds (r : PEXReactor)
    (numOutPeers numInPeers numDialing : Z)
    (toDial : gmap string NetAddress) : Prog unit :=
  if int_wrap (int_wrap (int_wrap (numOutPeers + numInPeers) + numDialing)
               + Z.of_nat (size toDial)) =? 0 then
    call (Logger_Info "No addresses to dial nor connected peers. Will dial seeds");;
    call (Switch_DialPeersAsync (Seeds (config r)) false)
  else Ret tt.

(** The part of [ensurePeers] after the selection loop.  Go ranges over a
    map in an unspecified order; [map_to_list] fixes one. *)
Definition ensurePeers_finish (r : PEXReactor)
    (numOutPeers numInPeers numDialing : Z)
    (toDial : gmap string NetAddress) : Prog unit :=
  dialPicked (snd <$> map_to_list toDial);;
  ensurePeers_askForMore r;;
  ensurePeers_dialSeeds r numOutPeers numInPeers numDialing toDial.

Definition ensurePeers (r : PEXReactor) : Prog unit :=
  '(numOutPeers, numInPeers, numDialing) ← call Switch_NumPeers;
  let numToDial :=
    int_wrap (minNumOutboundPeers - int_wrap (numOutPeers + numDialing)) in
  call (Logger_Info "Ensure peers");;
  if numToDial <=? 0 then Ret tt
  else
    let bias := newBias numOutPeers in
    let maxAttempts := int_wrap (numToDial * 3) in
    toDial ← pickLoop (Z.to_nat maxAttempts) numToDial bias ∅;
    ensurePeers_finish r numOutPeers numInPeers numDialing toDial.

(** One tick of [flushMsgCountByPeer]. *)
Definition flushMsgCountByPeer_tick (r : PEXReactor) : Prog unit :=
  store CMap_Clear.

End Reactor.

(* ------------------------------------------------------------------------- *)
(** ** Reading a trace *)

(** The messages handed to [Peer.Send]. *)
Definition sent_of (ev : Event) : option (Peer * Byte.byte * PexMessage) :=
  match ev with
  | Ev e _ =>
      match e with
      | Peer_Send p chID msg => Some (p, chID, msg)
      | _ => None
      end
  end.

(** The [(addr, src)] pairs handed to [AddrBook.AddAddress]. *)
Definition added_of (ev : Event) : option (NetAddress * NetAddress) :=
  match ev with
  | Ev e _ =>
      match e with
      | Book_AddAddress addr src => Some (addr, src)
      | _ => None
      end
  end.

(** Calls that change the address book. *)
Definition mutates_book (ev : Event) : bool :=
  match ev with
  | Ev e _ =>
      match e with
      | Book_AddAddress _ _ | Book_MarkAttempt _ | Book_Start | Book_Stop => true
      | _ => false
      end
  end.

(** The draws from [AddrBook.PickAddress]: bias and answer. *)
Definition pick_of (ev : Event) : option (Z * NetAddressPtr) :=
  match ev with
  | Ev e x =>
      match e in extE T return T -> option (Z * NetAddressPtr) with
      | Book_PickAddress b => fun try => Some (b, try)
      | _ => fun _ => None
      end x
  end.

(** The goroutines started. *)
Definition spawned_of (ev : Event) : option goroutine :=
  match ev with
  | Ev e _ =>
      match e with
      | Go g => Some g
      | _ => None
      end
  end.

(** The addresses for which a dial goroutine was started. *)
Definition dial_of (ev : Event) : option NetAddress :=
  match spawned_of ev with
  | Some (go_dial picked) => Some picked
  | _ => None
  end.

(** The calls to [Switch.DialPeersAsync]. *)
Definition seed_dial_of (ev : Event) : option (list string * bool) :=
  match ev with
  | Ev e _ =>
      match e with
      | Switch_DialPeersAsync seeds persistent => Some (seeds, persistent)
      | _ => None
      end
  end.

Definition sends (t : list Event) := omap sent_of t.
Definition added (t : list Event) := omap added_of t.
Definition picks (t : list Event) := omap pick_of t.
Definition spawned (t : list Event) := omap spawned_of t.
Definition dials (t : list Event) := omap dial_of t.
Definition seed_dials (t : list Event) := omap seed_dial_of t.
Definition book_mutations (t : list Event) := filter (fun ev => mutates_book ev = true) t.

(** The counter of a peer, 0 when the map has no entry for it. *)
Definition count_of {W : Type} (s : State W) (peerID : ID) : Z :=
  default 0 (msgCountByPeer s !! peerID).

(** The state in which [Receive] looks at a message: the sender's counter has
    been bumped, with [uint16] wrap-around. *)
Definition counted {W : Type} (s : State W) (peerID : ID) : State W :=
  mkState (<[peerID := uint16_wrap (count_of s peerID + 1)]> (msgCountByPeer s))
          (world s).

(** The messages of a list that come from the peer with the given ID. *)
Definition sent_by (peerID : ID) (msgs : list (Peer * list Byte.byte)) : nat :=
  length (filter (fun m => addr_ID (NodeInfo_NetAddress m.1) = peerID) msgs).

(** The state after the reactor has received the given messages one after
    the other on the PEX channel.  A panic inside [Receive] is caught by the
    connection that delivered the message; the counters stay as they were
    when it happened. *)
Fixpoint after_messages {W : Type} (h : forall X : Type, extE X -> W -> X * W)
    (wire_ReadBinary : list Byte.byte -> Z -> PexMessage * option error)
    (r : PEXReactor) (msgs : list (Peer * list Byte.byte)) (s : State W)
  : State W :=
  match msgs with
  | [] => s
  | (src, msgBytes) :: rest =>
      after_messages h wire_ReadBinary r rest
        (run h (Receive wire_ReadBinary r PexChannel src msgBytes) s).1.2
  end.

(** The three calls by which the selection loop accepts a drawn address: the
    draw itself and the two negative answers of the switch. *)
Definition accepted_draw (bias : Z) (a : NetAddress) : list Event :=
  [Ev (Book_PickAddress bias) (Some a);
   Ev (Switch_IsDialing (addr_ID a)) false;
   Ev (Switch_Peers_Has (addr_ID a)) false].

Definition selected_in (t : list Event) (bias : Z) (a : NetAddress) : Prop :=
  exists t1 t2, t = t1 ++ accepted_draw bias a ++ t2.

(** What the selection loop guarantees when it is entered with [attempts]
    attempts left and the target set [toDial], and ends with the set
    [toDial'] after the calls [t]. *)
Definition loop_post (attempts : nat) (numToDial bias : Z)
    (toDial toDial' : gmap string NetAddress) (t : list Event) : Prop :=
  toDial ⊆ toDial' /\
  map_Forall (fun k a => addr_ID a = k) toDial' /\
  (length (picks t) <= attempts)%nat /\
  Forall (fun pk => pk.1 = bias) (picks t) /\
  Z.of_nat (size toDial') <= Z.max (Z.of_nat (size toDial)) numToDial /\
  (Z.of_nat (size toDial') < numToDial -> length (picks t) = attempts) /\
  (forall k a, toDial' !! k = Some a ->
     toDial !! k = Some a \/ selected_in t bias a) /\
  dials t = [] /\ seed_dials t = [] /\ sends t = [] /\ book_mutations t = [].

(** The calls by which [ensurePeers] falls back to the seeds, if it does. *)
Definition seeds_trace (r : PEXReactor) (dialed : bool) : list Event :=
  if dialed then
    [Ev (Logger_Info "No addresses to dial nor connected peers. Will dial seeds") tt;
     Ev (Switch_DialPeersAsync (Seeds (config r)) false) tt]
  else [].

(** The goroutines started for the picked addresses. *)
Definition dial_events (items : list NetAddress) : list Event :=
  (fun a => Ev (Go (go_dial a)) tt) <$> items.

(** [math/rand.Int] returns a non-negative number. *)
Definition rand_nonneg {W : Type} (h : forall X : Type, extE X -> W -> X * W) : Prop :=
  forall w : W, 0 <= (h Z rand_Int w).1.

(** What [NumPeers] can answer: sizes of collections held in memory. *)
Definition peer_counts (numOutPeers numInPeers numDialing : Z) : Prop :=
  0 <= numOutPeers /\ 0 <= numInPeers /\ 0 <= numDialing /\
  numOutPeers + numInPeers + numDialing + minNumOutboundPeers <= max_int.

(* ------------------------------------------------------------------------- *)
(** ** A scripted environment for closed examples *)

(** Collaborators that answer from a fixed script: the picker hands out
    [sw_picks] one by one and nil afterwards; everything else is constant.
    [rand.Int] is documented to be non-negative, hence the absolute value. *)
Record Script : Type := mkScript {
  sw_baseStart : option error;
  sw_bookStart : option error;
  sw_needMore : bool;
  sw_selection : list NetAddressPtr;
  sw_picks : list NetAddressPtr;
  sw_numPeers : Z * Z * Z;
  sw_dialing : list string;
  sw_peers : list Peer;
  sw_rand : Z
}.

Definition script_tail (w : Script) : Script :=
  {| sw_baseStart := sw_baseStart w;
     sw_bookStart := sw_bookStart w;
     sw_needMore := sw_needMore w;
     sw_selection := sw_selection w;
     sw_picks := tail (sw_picks w);
     sw_numPeers := sw_numPeers w;
     sw_dialing := sw_dialing w;
     sw_peers := sw_peers w;
     sw_rand := sw_rand w |}.

Definition script_handler (X : Type) (e : extE X) (w : Script) : X * Script :=
  match e in extE T return T * Script with
  | BaseReactor_OnStart => (sw_baseStart w, w)
  | BaseReactor_OnStop => (tt, w)
  | Logger_Error _ => (tt, w)
  | Logger_Info _ => (tt, w)
  | Logger_Debug _ => (tt, w)
  | Book_Start => (sw_bookStart w, w)
  | Book_Stop => (tt, w)
  | Book_NeedMoreAddrs => (sw_needMore w, w)
  | Book_GetSelection => (sw_selection w, w)
  | Book_PickAddress _ => (mjoin (head (sw_picks w)), script_tail w)
  | Book_AddAddress _ _ => (tt, w)
  | Book_MarkAttempt _ => (tt, w)
  | Switch_NumPeers => (sw_numPeers w, w)
  | Switch_IsDialing id => (bool_decide (id ∈ sw_dialing w), w)
  | Switch_Peers_Has id =>
      (bool_decide (id ∈ (addr_ID ∘ NodeInfo_NetAddress) <$> sw_peers w), w)
  | Switch_Peers_List => (sw_peers w, w)
  | Switch_DialPeerWithAddress _ _ => (None, w)
  | Switch_DialPeersAsync _ _ => (tt, w)
  | Peer_Send _ _ _ => (true, w)
  | rand_Int => (Z.abs (sw_rand w), w)
  | Go _ => (tt, w)
  end.

(** An isolated node with an empty address book. *)
Definition idle_script : Script :=
  {| sw_baseStart := None;
     sw_bookStart := None;
     sw_needMore := true;
     sw_selection := [];
     sw_picks := [];
     sw_numPeers := (0, 0, 0);
     sw_dialing := [];
     sw_peers := [];
     sw_rand := 0 |}.

Definition addrC : NetAddress := mkNetAddress "C" "10.0.0.3" 46656.
Definition addrD : NetAddress := mkNetAddress "D" "10.0.0.4" 46656.
Definition addrE : NetAddress := mkNetAddress "E" "10.0.0.5" 46656.

Definition peerA : Peer := mkPeer false (mkNetAddress "peerA" "10.0.0.1" 46656).
Definition peerB : Peer := mkPeer true (mkNetAddress "peerB" "10.0.0.2" 46656).

(** Eight outbound peers and one inbound: two more are wanted.  The picker
    offers C twice, then nothing, then D (being dialed), then the connected
    peer B, then E. *)
Definition short_script : Script :=
  {| sw_baseStart := None;
     sw_bookStart := None;
     sw_needMore := false;
     sw_selection := [Some addrC];
     sw_picks := [Some addrC; Some addrC; None; Some addrD;
                  Some (NodeInfo_NetAddress peerB); Some addrE];
     sw_numPeers := (8, 1, 0);
     sw_dialing := ["D"];
     sw_peers := [peerB; peerA];
     sw_rand := 7 |}.

(** Seven outbound peers and three dials under way: nothing is missing. *)
Definition full_script : Script :=
  {| sw_baseStart := None;
     sw_bookStart := Some ErrAlreadyStarted;
     sw_needMore := false;
     sw_selection := [];
     sw_picks := [Some addrC];
     sw_numPeers := (7, 2, 3);
     sw_dialing := [];
     sw_peers := [];
     sw_rand := 0 |}.

Definition reactor0 : PEXReactor :=
  NewPEXReactor (mkConfig ["seed.example.com:46656"]).

(** A stand-in for go-wire's reader in the closed examples: the tag byte
    selects the variant, every payload byte of an Addrs message is one entry
    (0x00 for nil, any other byte for an address named after it), and an
    unknown tag or more than [lmt] bytes is an error. *)
Definition toy_address (b : Byte.byte) : NetAddressPtr :=
  if Byte.eqb b Byte.x00 then None
  else Some (mkNetAddress (String (Ascii.ascii_of_byte b) EmptyString) "" 0).

Definition toy_ReadBinary (bz : list Byte.byte) (lmt : Z)
  : PexMessage * option error :=
  if lmt <? Z.of_nat (length bz) then (pexOtherValue, Some (ErrOther "overflow"))
  else
    match bz with
    | [] => (pexOtherValue, Some (ErrOther "EOF"))
    | tag :: payload =>
        if Byte.eqb tag msgTypeRequest then (pexRequestMessage, None)
        else if Byte.eqb tag msgTypeAddrs then
          (pexAddrsMessage (toy_address <$> payload), None)
        else (pexOtherValue, Some (ErrOther "unknown type byte"))
    end.

Definition fresh (w : Script) : State Script := mkState ∅ w.

(** The message [Addrs [A, nil, B]] in the toy encoding. *)
Definition addrs_A_nil_B : list Byte.byte := [Byte.x02; Byte.x41; Byte.x00; Byte.x42].

(** Threshold 2, and the state after one message from B and the first message
    from A in a window. *)
Definition reactor_max2 : PEXReactor := SetMaxMsgCountByPeer reactor0 2.

Definition after_first_message : State Script :=
  after_messages script_handler toy_ReadBinary reactor_max2
    [(peerB, [msgTypeRequest]); (peerA, [msgTypeRequest])] (fresh idle_script).

(** A sender that has reached 65535 messages in the window. *)
Definition saturated : State Script := mkState {[ "peerA" := 65535 ]} idle_script.

(* ------------------------------------------------------------------------- *)
(** ** Channels, and what a program may call *)

(** [ChannelDescriptor], with the fields [GetChannels] sets. *)
Record ChannelDescriptor : Type := mkChannelDescriptor {
  ch_ID : Byte.byte;
  ch_Priority : Z;
  ch_SendQueueCapacity : Z
}.

Definition GetChannels (r : PEXReactor) : list ChannelDescriptor :=
  [ {| ch_ID := PexChannel; ch_Priority := 1; ch_SendQueueCapacity := 10 |} ].

#[global] Instance NetAddress_eq_dec : EqDecision NetAddress.
Proof. solve_decision. Defined.

#[global] Instance Peer_eq_dec : EqDecision Peer.
Proof. solve_decision. Defined.

(** A program that does not touch the counter map. *)
Fixpoint store_free {A : Type} (p : Prog A) : Prop :=
  match p with
  | Ret _ | Panic _ => True
  | Call _ k => forall x, store_free (k x)
  | Store _ _ => False
  end.

(** A program all of whose calls to the collaborators pass the test [ok]. *)
Fixpoint only_calls (ok : forall X : Type, extE X -> bool) {A : Type}
    (p : Prog A) : Prop :=
  match p with
  | Ret _ | Panic _ => True
  | Call e k => ok _ e = true /\ forall x, only_calls ok (k x)
  | Store _ k => forall x, only_calls ok (k x)
  end.

Definition event_ok (ok : forall X : Type, extE X -> bool) (ev : Event) : Prop :=
  match ev with Ev e _ => ok _ e = true end.

(** Sends go over a channel that [GetChannels] declares. *)
Definition on_declared_channel (r : PEXReactor) (X : Type) (e : extE X) : bool :=
  match e with
  | Peer_Send _ chID _ =>
      existsb (fun d => Byte.eqb (ch_ID d) chID) (GetChannels r)
  | _ => true
  end.

(** The calls [ensurePeers] can make: it queries the switch and the book,
    draws addresses, starts dial goroutines, may send a Request and may hand
    the configured seeds to [DialPeersAsync], always non-persistent. *)
Definition ensurePeers_call (r : PEXReactor) (X : Type) (e : extE X) : bool :=
  match e with
  | Switch_NumPeers | Logger_Info _ | Book_PickAddress _
  | Switch_IsDialing _ | Switch_Peers_Has _ | Book_NeedMoreAddrs
  | Switch_Peers_List | rand_Int => true
  | Go (go_dial _) => true
  | Peer_Send _ chID pexRequestMessage => Byte.eqb chID PexChannel
  | Switch_DialPeersAsync seeds persistent =>
      bool_decide (seeds = Seeds (config r)) && negb persistent
  | _ => false
  end.

(** The calls [Receive] can make: log lines, [GetSelection], an Addrs reply
    to the sender on the PEX channel, and [AddAddress] with the sender's
    address as source. *)
Definition Receive_call (src : Peer) (X : Type) (e : extE X) : bool :=
  match e with
  | Logger_Error _ | Logger_Debug _ | Book_GetSelection => true
  | Peer_Send p chID (pexAddrsMessage _) =>
      Byte.eqb chID PexChannel && bool_decide (p = src)
  | Book_AddAddress _ s => bool_decide (s = NodeInfo_NetAddress src)
  | _ => false
  end.

(** A node whose [BaseReactor.OnStart] fails. *)
Definition broken_base_script : Script :=
  {| sw_baseStart := Some (ErrOther "base failed");
     sw_bookStart := None;
     sw_needMore := true;
     sw_selection := [];
     sw_picks := [];
     sw_numPeers := (0, 0, 0);
     sw_dialing := [];
     sw_peers := [];
     sw_rand := 0 |}.

(** A node with three outbound peers whose book wants addresses. *)
Definition hungry_script : Script :=
  {| sw_baseStart := None;
     sw_bookStart := None;
     sw_needMore := true;
     sw_selection := [Some addrC; None; Some addrD];
     sw_picks := [];
     sw_numPeers := (3, 0, 0);
     sw_dialing := [];
     sw_peers := [peerB; peerA];
     sw_rand := 7 |}.


(** go-wire reads the tag 0x00 as a nil interface value, without an error;
    otherwise like [toy_ReadBinary]. *)
Definition nil_tag_ReadBinary (bz : list Byte.byte) (lmt : Z)
  : PexMessage * option error :=
  match bz with
  | tag :: _ =>
      if Byte.eqb tag Byte.x00 then (pexOtherValue, None) else toy_ReadBinary bz lmt
  | [] => toy_ReadBinary bz lmt
  end.

(** A state in which another peer has used up its whole counter. *)
Definition other_peer_saturated : State Script :=
  mkState {[ "peerB" := 65535 ]} idle_script.

Definition request_from (p : Peer) : Peer * list Byte.byte := (p, [msgTypeRequest]).


(* ------------------------------------------------------------------------- *)
(** ** Arithmetic of the machine integers *)

Lemma int_wrap_id (z : Z) : - 2 ^ 63 <= z <= max_int -> int_wrap z = z.
Proof.
  unfold int_wrap, max_int. intros Hz.
  rewrite Z.mod_small by lia. lia.
Qed.

Lemma MinInt_min (a b : Z) : MinInt a b = Z.min a b.
Proof. unfold MinInt. destruct (Z.ltb_spec a b); lia. Qed.

Lemma newBias_formula (n : Z) : 0 <= n -> newBias n = Z.min n 8 * 10 + 10.
Proof.
  intros Hn. unfold newBias. rewrite MinInt_min.
  rewrite (int_wrap_id (Z.min n 8 * 10)) by (unfold max_int; lia).
  apply int_wrap_id. unfold max_int. lia.
Qed.

(* ------------------------------------------------------------------------- *)
(** ** Running sequenced programs *)

Section RunFacts.

Context {W : Type}.
Variable h : forall X : Type, extE X -> W -> X * W.

Lemma run_bind {A B : Type} (p : Prog A) (f : A -> Prog B) (s : State W) :
  run h (p ≫= f) s =
    match run h p s with
    | (Done a, s1, t1) =>
        let '(o, s2, t2) := run h (f a) s1 in (o, s2, t1 ++ t2)
    | (Panicked m, s1, t1) => (Panicked m, s1, t1)
    end.
Proof.
  unfold mbind, Prog_bind. revert s.
  induction p as [a | m | X e k IH | X o k IH]; intros s; simpl.
  - destruct (run h (f a) s) as [[o s2] t2]. reflexivity.
  - reflexivity.
  - destruct (h X e (world s)) as [x w'].
    rewrite IH.
    destruct (run h (k x) _) as [[[a | m] s1] t1]; [| reflexivity].
    destruct (run h (f a) s1) as [[o s2] t2]. reflexivity.
  - destruct (cmap_step o (msgCountByPeer s)) as [x m']. apply IH.
Qed.

Lemma run_call {X : Type} (e : extE X) (s : State W) :
  run h (call e) s =
    (Done (h X e (world s)).1,
     mkState (msgCountByPeer s) (h X e (world s)).2,
     [Ev e (h X e (world s)).1]).
Proof. simpl. destruct (h X e (world s)). reflexivity. Qed.

End RunFacts.

(* ------------------------------------------------------------------------- *)
(** ** Properties of the reactor *)

Section Properties.

Context {W : Type}.
Variable h : forall X : Type, extE X -> W -> X * W.
Variable wire_ReadBinary : list Byte.byte -> Z -> PexMessage * option error.

Implicit Types (r : PEXReactor) (s : State W) (p src : Peer).

(** *** DecodeMessage *)

(** C2 (fails on the code): on the empty byte slice [DecodeMessage] does not
    return an error; the index expression [bz[0]] panics before the reader
    is even built, whatever the wire library would have answered.  Run in
    any state, the call ends in a panic with no call made and the state as
    it was. *)
Theorem DecodeMessage_empty_panics s :
  DecodeMessage wire_ReadBinary [] = Panic "index out of range" /\
  run h (DecodeMessage wire_ReadBinary []) s =
    (Panicked "index out of range", s, []).
Proof. split; reflexivity. Qed.

(** On a non-empty slice the call returns the first byte and whatever the
    reader produced, and touches neither the collaborators nor the
    counters. *)
Lemma DecodeMessage_nonempty (b : Byte.byte) (bz : list Byte.byte) s :
  run h (DecodeMessage wire_ReadBinary (b :: bz)) s =
    (Done (b, (wire_ReadBinary (b :: bz) maxPexMessageSize).1,
              (wire_ReadBinary (b :: bz) maxPexMessageSize).2), s, []).
Proof.
  unfold DecodeMessage.
  destruct (wire_ReadBinary (b :: bz) maxPexMessageSize) as [msg err].
  reflexivity.
Qed.

(** *** AddPeer *)

(** C8: for an outbound peer, [AddPeer] asks the book whether it needs more
    addresses; on yes it sends exactly one Request on the PEX channel to
    that peer and leaves the book alone, on no the query is the only call
    made.  For an inbound peer it calls [AddAddress] once, with the peer's
    own address as address and as source, and sends nothing. *)
Theorem AddPeer_spec r p s :
  let t := (run h (AddPeer r p) s).2 in
  let addr := NodeInfo_NetAddress p in
  (IsOutbound p = true ->
   (h bool Book_NeedMoreAddrs (world s)).1 = true ->
   sends t = [(p, PexChannel, pexRequestMessage)] /\ book_mutations t = []) /\
  (IsOutbound p = true ->
   (h bool Book_NeedMoreAddrs (world s)).1 = false ->
   t = [Ev Book_NeedMoreAddrs false]) /\
  (IsOutbound p = false ->
   added t = [(addr, addr)] /\ book_mutations t = [Ev (Book_AddAddress addr addr) tt] /\
   sends t = []).
Proof.
  unfold AddPeer. cbn zeta.
  repeat apply conj; intros Hout; rewrite Hout; simpl.
  - destruct (h bool Book_NeedMoreAddrs (world s)) as [need w1]; simpl.
    intros ->; simpl.
    destruct (h bool (Peer_Send p PexChannel pexRequestMessage) w1).
    split; reflexivity.
  - destruct (h bool Book_NeedMoreAddrs (world s)) as [need w1]; simpl.
    intros ->; reflexivity.
  - destruct (h unit (Book_AddAddress _ _) (world s)) as [[] w1].
    repeat split; reflexivity.
Qed.

(** *** OnStart *)

(** C9: once [BaseReactor.OnStart] has succeeded the address book is
    started.  If its [Start] fails with an error other than
    [ErrAlreadyStarted], [OnStart] returns that error and starts no
    goroutine; if it succeeds or fails with [ErrAlreadyStarted], [OnStart]
    starts the ensure-peers routine and the counter-flush routine, in this
    order, and returns nil. *)
Theorem OnStart_spec r s :
  (h _ BaseReactor_OnStart (world s)).1 = None ->
  let w1 := (h _ BaseReactor_OnStart (world s)).2 in
  let res := run h (OnStart r) s in
  match (h _ Book_Start w1).1 with
  | Some (ErrOther m) =>
      res.1.1 = Done (Some (ErrOther m)) /\ spawned res.2 = []
  | Some ErrAlreadyStarted | None =>
      res.1.1 = Done None /\
      spawned res.2 = [go_ensurePeersRoutine; go_flushMsgCountByPeer]
  end.
Proof.
  intros Hbase. unfold OnStart. simpl.
  destruct (h _ BaseReactor_OnStart (world s)) as [b w1]. simpl in *. subst b.
  simpl.
  destruct (h _ Book_Start w1) as [[[| m] |] w2]; simpl.
  - destruct (h _ (Go go_ensurePeersRoutine) w2) as [[] w3].
    destruct (h _ (Go go_flushMsgCountByPeer) w3) as [[] w4].
    split; reflexivity.
  - split; reflexivity.
  - destruct (h _ (Go go_ensurePeersRoutine) w2) as [[] w3].
    destruct (h _ (Go go_flushMsgCountByPeer) w3) as [[] w4].
    split; reflexivity.
Qed.

(** A failing [BaseReactor.OnStart] ends the start-up before the book is
    touched. *)
Lemma OnStart_base_failure r s (e : error) :
  (h _ BaseReactor_OnStart (world s)).1 = Some e ->
  (run h (OnStart r) s).1.1 = Done (Some e) /\
  (run h (OnStart r) s).2 = [Ev BaseReactor_OnStart (Some e)].
Proof.
  intros Hbase. unfold OnStart. simpl.
  destruct (h _ BaseReactor_OnStart (world s)) as [b w1]. simpl in *. subst b.
  split; reflexivity.
Qed.

(** *** Receive *)

Lemma run_IncrementMsgCountForPeer r (peerID : ID) s :
  run h (IncrementMsgCountForPeer r peerID) s =
    (Done tt,
     mkState (<[peerID := uint16_wrap (count_of s peerID + 1)]> (msgCountByPeer s))
             (world s),
     []).
Proof.
  unfold IncrementMsgCountForPeer, count_of. simpl.
  destruct (msgCountByPeer s !! peerID); reflexivity.
Qed.

Lemma run_ReachedMaxMsgCountForPeer r (peerID : ID) s (count : Z) :
  msgCountByPeer s !! peerID = Some count ->
  run h (ReachedMaxMsgCountForPeer r peerID) s =
    (Done (maxMsgCountByPeer r <=? count), s, []).
Proof.
  intros Hc. unfold ReachedMaxMsgCountForPeer. simpl. rewrite Hc.
  destruct s; reflexivity.
Qed.

(** The loop over the received addresses: one [AddAddress] per non-nil
    entry, in order, and nothing else. *)
Lemma run_Receive_addrs (addrs : list NetAddressPtr) (srcAddr : NetAddress) s :
  exists w',
    run h (Receive_addrs addrs srcAddr) s =
      (Done tt, mkState (msgCountByPeer s) w',
       (fun a => Ev (Book_AddAddress a srcAddr) tt) <$> omap id addrs).
Proof.
  revert s. induction addrs as [| [a |] rest IH]; intros s.
  - exists (world s). destruct s; reflexivity.
  - cbn [Receive_addrs]. rewrite run_bind, run_call.
    destruct (h unit (Book_AddAddress a srcAddr) (world s)) as [[] w1]. simpl.
    destruct (IH (mkState (msgCountByPeer s) w1)) as [w' ->].
    exists w'. reflexivity.
  - cbn [Receive_addrs]. rewrite run_bind. simpl.
    destruct (IH s) as [w' ->]. exists w'. reflexivity.
Qed.

Lemma run_Receive r (chID : Byte.byte) src (msgBytes : list Byte.byte) s :
  let peerID := addr_ID (NodeInfo_NetAddress src) in
  run h (Receive wire_ReadBinary r chID src msgBytes) s =
    if maxMsgCountByPeer r <=? uint16_wrap (count_of s peerID + 1) then
      run h (call (Logger_Error "Maximum number of messages reached for peer"))
          (counted s peerID)
    else run h (Receive_dispatch wire_ReadBinary r src msgBytes)
             (counted s peerID).
Proof.
  intros peerID. unfold Receive. fold peerID.
  rewrite run_bind, run_IncrementMsgCountForPeer. fold (counted s peerID).
  rewrite run_bind.
  rewrite (run_ReachedMaxMsgCountForPeer r peerID (counted s peerID)
             (uint16_wrap (count_of s peerID + 1)))
    by apply lookup_insert_eq.
  destruct (maxMsgCountByPeer r <=? _).
  - destruct (run h (call _) _) as [[o s2] t2]. reflexivity.
  - destruct (run h _ _) as [[o s2] t2]. reflexivity.
Qed.

Lemma added_AddAddress_events (l : list NetAddress) (srcAddr : NetAddress) :
  added ((fun a => Ev (Book_AddAddress a srcAddr) tt) <$> l) =
    (fun a => (a, srcAddr)) <$> l.
Proof. induction l as [| a l IH]; [reflexivity |]. cbn. f_equal. exact IH. Qed.

Lemma sends_AddAddress_events (l : list NetAddress) (srcAddr : NetAddress) :
  sends ((fun a => Ev (Book_AddAddress a srcAddr) tt) <$> l) = [].
Proof. induction l as [| a l IH]; [reflexivity |]. exact IH. Qed.

Lemma book_mutations_AddAddress_events (l : list NetAddress) (srcAddr : NetAddress) :
  book_mutations ((fun a => Ev (Book_AddAddress a srcAddr) tt) <$> l) =
    (fun a => Ev (Book_AddAddress a srcAddr) tt) <$> l.
Proof.
  induction l as [| a l IH]; [reflexivity |].
  unfold book_mutations in *. cbn [fmap list_fmap].
  rewrite filter_cons_True by reflexivity. f_equal. exact IH.
Qed.

(** The dispatch part never writes the counters, however it ends. *)
Lemma Receive_dispatch_counters r src (msgBytes : list Byte.byte) s :
  msgCountByPeer (run h (Receive_dispatch wire_ReadBinary r src msgBytes) s).1.2
    = msgCountByPeer s.
Proof.
  unfold Receive_dispatch. destruct msgBytes as [| b bz]; [reflexivity |].
  rewrite run_bind, DecodeMessage_nonempty.
  destruct (wire_ReadBinary (b :: bz) maxPexMessageSize) as [msg [e |]]; cbn [fst snd].
  - rewrite run_call. reflexivity.
  - rewrite run_bind, run_call.
    destruct msg as [| addrs |].
    + rewrite run_bind, run_call. unfold SendAddrs.
      rewrite run_bind, run_call. reflexivity.
    + destruct (run_Receive_addrs addrs (NodeInfo_NetAddress src)
                  (mkState (msgCountByPeer s)
                     (h unit (Logger_Debug "Received message") (world s)).2))
        as [w' ->].
      reflexivity.
    + rewrite run_call. reflexivity.
Qed.

(** Whatever becomes of the message (dropped by the limiter, rejected by
    the decoder, a panic on an empty slice, an unknown variant, or
    processed), the counters afterwards are those before with the sender's
    entry set to its old count plus one modulo 65536. *)
Lemma Receive_counters r (chID : Byte.byte) src (msgBytes : list Byte.byte) s :
  let peerID := addr_ID (NodeInfo_NetAddress src) in
  msgCountByPeer (run h (Receive wire_ReadBinary r chID src msgBytes) s).1.2 =
    <[peerID := uint16_wrap (count_of s peerID + 1)]> (msgCountByPeer s).
Proof.
  intros peerID. rewrite run_Receive. fold peerID.
  destruct (maxMsgCountByPeer r <=? _).
  - rewrite run_call. reflexivity.
  - rewrite Receive_dispatch_counters. reflexivity.
Qed.

(** Below 65535 the sender's counter goes up by exactly one, and the
    counters of all other peers stay as they are. *)
Lemma Receive_counter_step r (chID : Byte.byte) src (msgBytes : list Byte.byte) s :
  let peerID := addr_ID (NodeInfo_NetAddress src) in
  let s' := (run h (Receive wire_ReadBinary r chID src msgBytes) s).1.2 in
  0 <= count_of s peerID < 65535 ->
  count_of s' peerID = count_of s peerID + 1 /\
  (forall other : ID, other <> peerID ->
     msgCountByPeer s' !! other = msgCountByPeer s !! other).
Proof.
  intros peerID s' Hc. subst s'. unfold count_of at 1.
  rewrite Receive_counters. fold peerID. split.
  - rewrite lookup_insert_eq. simpl. unfold uint16_wrap.
    apply Z.mod_small. lia.
  - intros other Hne. apply lookup_insert_ne. congruence.
Qed.

(** In a window the counter of a peer is the number of messages it has
    sent, as long as that number stays below 65536. *)
Lemma count_after_messages r (msgs : list (Peer * list Byte.byte)) s (peerID : ID) :
  0 <= count_of s peerID ->
  count_of s peerID + Z.of_nat (sent_by peerID msgs) <= 65535 ->
  count_of (after_messages h wire_ReadBinary r msgs s) peerID =
    count_of s peerID + Z.of_nat (sent_by peerID msgs).
Proof.
  revert s. induction msgs as [| [p bz] rest IH]; intros s Hc Hfit.
  { unfold sent_by. simpl. lia. }
  cbn [after_messages].
  set (s1 := (run h (Receive wire_ReadBinary r PexChannel p bz) s).1.2).
  assert (Hs1 : msgCountByPeer s1 =
                <[addr_ID (NodeInfo_NetAddress p) :=
                    uint16_wrap (count_of s (addr_ID (NodeInfo_NetAddress p)) + 1)]>
                  (msgCountByPeer s)) by apply Receive_counters.
  unfold sent_by in *.
  destruct (decide (addr_ID (NodeInfo_NetAddress p) = peerID)) as [Heq | Hne].
  - rewrite filter_cons_True in * by exact Heq. cbn [length] in *.
    assert (Hc1 : count_of s1 peerID = count_of s peerID + 1).
    { unfold count_of at 1. rewrite Hs1, Heq, lookup_insert_eq. simpl.
      unfold uint16_wrap. apply Z.mod_small. lia. }
    rewrite IH by lia. lia.
  - rewrite filter_cons_False in * by exact Hne.
    assert (Hc1 : count_of s1 peerID = count_of s peerID).
    { unfold count_of. by rewrite Hs1, lookup_insert_ne. }
    rewrite IH by lia. lia.
Qed.

(** C1 (fails on the code): with threshold N = [maxMsgCountByPeer], take a
    window that starts with flushed counters and in which the sender has
    sent N - 1 messages so far, among any traffic of other peers.  Its next
    message, the N-th and not the (N+1)-th, is already dropped: the counter
    is bumped to N, the check [count >= max] holds, and the only call made
    is the log line; the message is not decoded, no reply is sent and the
    address book is not touched. *)
Theorem Receive_drops_Nth_message r (chID : Byte.byte) src
    (msgBytes : list Byte.byte) (earlier : list (Peer * list Byte.byte))
    (w : W) (N : Z) :
  let peerID := addr_ID (NodeInfo_NetAddress src) in
  let s := after_messages h wire_ReadBinary r earlier (mkState ∅ w) in
  let res := run h (Receive wire_ReadBinary r chID src msgBytes) s in
  maxMsgCountByPeer r = N ->
  1 <= N <= 65535 ->
  Z.of_nat (sent_by peerID earlier) = N - 1 ->
  res.1.1 = Done tt /\
  res.2 = [Ev (Logger_Error "Maximum number of messages reached for peer") tt] /\
  sends res.2 = [] /\ book_mutations res.2 = [] /\
  count_of res.1.2 peerID = N.
Proof.
  intros peerID s res Hmax HN Hsent. subst res.
  assert (Hc : count_of s peerID = N - 1).
  { subst s.
    assert (H0 : count_of (mkState (∅ : gmap string Z) w) peerID = 0)
      by (unfold count_of; cbn [msgCountByPeer]; by rewrite lookup_empty).
    rewrite count_after_messages; rewrite H0; lia. }
  rewrite run_Receive. fold peerID. rewrite Hmax, Hc.
  replace (uint16_wrap (N - 1 + 1)) with N
    by (unfold uint16_wrap; rewrite Z.mod_small; lia).
  rewrite Z.leb_refl, run_call.
  destruct (h unit _ _) as [[] w1]. cbn [fst snd].
  repeat split. unfold count_of, counted. cbn [msgCountByPeer].
  rewrite lookup_insert_eq. fold (count_of s peerID). rewrite Hc. simpl.
  unfold uint16_wrap. rewrite Z.mod_small; lia.
Qed.

(** C10 (fails on the code): a sender whose counter stands at 65535 does
    not get it incremented by one; [count++] on a [uint16] wraps and the
    counter is stored as 0, whatever becomes of the message. *)
Theorem Receive_counter_wraps r (chID : Byte.byte) src
    (msgBytes : list Byte.byte) s :
  let peerID := addr_ID (NodeInfo_NetAddress src) in
  count_of s peerID = 65535 ->
  msgCountByPeer (run h (Receive wire_ReadBinary r chID src msgBytes) s).1.2
    !! peerID = Some 0.
Proof.
  intros peerID Hc. rewrite Receive_counters. fold peerID.
  rewrite lookup_insert_eq, Hc. reflexivity.
Qed.

(** C3: when the limiter lets the message through and the reader decodes it
    as an Addrs message, [Receive] hands exactly the non-nil entries to
    [AddAddress], in order, each with the sender's address as source; it
    changes the book in no other way and sends nothing.  For the entries
    [A, nil, B] the calls are [AddAddress(A, src)] and [AddAddress(B, src)]. *)
Theorem Receive_Addrs_spec r (chID b : Byte.byte) src (bz : list Byte.byte) s
    (addrs : list NetAddressPtr) :
  let srcAddr := NodeInfo_NetAddress src in
  let res := run h (Receive wire_ReadBinary r chID src (b :: bz)) s in
  uint16_wrap (count_of s (addr_ID srcAddr) + 1) < maxMsgCountByPeer r ->
  wire_ReadBinary (b :: bz) maxPexMessageSize = (pexAddrsMessage addrs, None) ->
  res.1.1 = Done tt /\
  added res.2 = (fun a => (a, srcAddr)) <$> omap id addrs /\
  book_mutations res.2 =
    (fun a => Ev (Book_AddAddress a srcAddr) tt) <$> omap id addrs /\
  sends res.2 = [] /\
  (forall A B : NetAddress,
     addrs = [Some A; None; Some B] ->
     added res.2 = [(A, srcAddr); (B, srcAddr)]).
Proof.
  intros srcAddr res Hlim Hdec. subst res.
  rewrite run_Receive. fold srcAddr.
  destruct (Z.leb_spec (maxMsgCountByPeer r)
              (uint16_wrap (count_of s (addr_ID srcAddr) + 1))) as [Hle | _];
    [lia |].
  unfold Receive_dispatch.
  rewrite run_bind, DecodeMessage_nonempty, Hdec. cbn [fst snd].
  rewrite run_bind, run_call. fold srcAddr.
  destruct (run_Receive_addrs addrs srcAddr
              (mkState (msgCountByPeer (counted s (addr_ID srcAddr)))
                 (h unit (Logger_Debug "Received message")
                    (world (counted s (addr_ID srcAddr)))).2))
    as [w' Hrun].
  rewrite Hrun. cbn [fst snd app].
  assert (Hadded : added (Ev (Logger_Debug "Received message")
                    (h unit (Logger_Debug "Received message")
                       (world (counted s (addr_ID srcAddr)))).1 ::
                  ((fun a => Ev (Book_AddAddress a srcAddr) tt) <$> omap id addrs))
              = (fun a => (a, srcAddr)) <$> omap id addrs)
    by apply added_AddAddress_events.
  repeat apply conj.
  - reflexivity.
  - exact Hadded.
  - apply book_mutations_AddAddress_events.
  - apply sends_AddAddress_events.
  - intros A B ->. rewrite Hadded. reflexivity.
Qed.

(** *** ensurePeers: the selection loop *)

Lemma selected_in_later (q t : list Event) (bias : Z) (a : NetAddress) :
  selected_in t bias a -> selected_in (q ++ t) bias a.
Proof.
  intros (t1 & t2 & ->). exists (q ++ t1), t2. by rewrite <- app_assoc.
Qed.

(** A rejected draw: one more attempt used, the target set as it was. *)
Lemma loop_post_rejected (n : nat) (d bias : Z)
    (toDial toDial' : gmap string NetAddress) (x : NetAddressPtr)
    (q t : list Event) :
  picks q = [] -> dials q = [] -> seed_dials q = [] -> sends q = [] ->
  book_mutations q = [] ->
  loop_post n d bias toDial toDial' t ->
  loop_post (S n) d bias toDial toDial' (Ev (Book_PickAddress bias) x :: q ++ t).
Proof.
  intros Hp Hd Hsd Hs Hb (Hsub & Hid & Hlen & Hbias & Hsize & Hfull & Hsel & H1 & H2 & H3 & H4).
  assert (Hpicks : picks (Ev (Book_PickAddress bias) x :: q ++ t) = (bias, x) :: picks t).
  { unfold picks in *. cbn [omap list_omap pick_of]. by rewrite omap_app, Hp. }
  unfold loop_post. rewrite Hpicks. repeat apply conj; try done.
  - simpl. lia.
  - by constructor.
  - intros Hlt. simpl. by rewrite Hfull.
  - intros k a Hk. destruct (Hsel k a Hk) as [? | Hin]; [by left | right].
    apply (selected_in_later (Ev (Book_PickAddress bias) x :: q)), Hin.
  - unfold dials in *. cbn [omap list_omap]. by rewrite omap_app, Hd, H1.
  - unfold seed_dials in *. cbn [omap list_omap]. by rewrite omap_app, Hsd, H2.
  - unfold sends in *. cbn [omap list_omap]. by rewrite omap_app, Hs, H3.
  - unfold book_mutations in *.
    rewrite filter_cons_False by (simpl; congruence).
    by rewrite filter_app, Hb, H4.
Qed.

(** An accepted draw: the address was not in the set and the switch denied
    both dialing and being connected to it. *)
Lemma loop_post_accepted (n : nat) (d bias : Z)
    (toDial toDial' : gmap string NetAddress) (a : NetAddress) (t : list Event) :
  toDial !! addr_ID a = None ->
  Z.of_nat (size toDial) < d ->
  loop_post n d bias (<[addr_ID a := a]> toDial) toDial' t ->
  loop_post (S n) d bias toDial toDial'
    (accepted_draw bias a ++ Ev (Logger_Info "Will dial address") tt :: t).
Proof.
  intros Hnew Hlt (Hsub & Hid & Hlen & Hbias & Hsize & Hfull & Hsel & H1 & H2 & H3 & H4).
  rewrite map_size_insert_None in Hsize by done.
  unfold loop_post, accepted_draw. cbn [app].
  assert (Hpicks : picks (Ev (Book_PickAddress bias) (Some a)
                   :: Ev (Switch_IsDialing (addr_ID a)) false
                   :: Ev (Switch_Peers_Has (addr_ID a)) false
                   :: Ev (Logger_Info "Will dial address") tt :: t)
                   = (bias, Some a) :: picks t) by reflexivity.
  rewrite Hpicks. repeat apply conj; try done.
  - etrans; [| exact Hsub]. by apply insert_subseteq.
  - simpl. lia.
  - by constructor.
  - lia.
  - intros Hlt'. simpl. by rewrite Hfull.
  - intros k a' Hk. destruct (Hsel k a' Hk) as [Hins | Hin].
    + destruct (decide (k = addr_ID a)) as [-> | Hne].
      * rewrite lookup_insert_eq in Hins. injection Hins as <-.
        right. exists [], (Ev (Logger_Info "Will dial address") tt :: t).
        reflexivity.
      * rewrite lookup_insert_ne in Hins by done. by left.
    + right.
      apply (selected_in_later
               (accepted_draw bias a ++ [Ev (Logger_Info "Will dial address") tt])) in Hin.
      exact Hin.
Qed.

Lemma loop_post_stop (n : nat) (d bias : Z) (toDial : gmap string NetAddress) :
  map_Forall (fun k a => addr_ID a = k) toDial ->
  (n = O \/ d <= Z.of_nat (size toDial)) ->
  loop_post n d bias toDial toDial [].
Proof.
  intros Hid Hstop. unfold loop_post. repeat apply conj; try done.
  - simpl. lia.
  - lia.
  - intros Hlt. destruct Hstop as [-> | Hge]; [reflexivity | lia].
  - intros k a Hk. by left.
Qed.

(** The loop always returns, never touches the counters, and meets
    [loop_post]. *)
Lemma run_pickLoop (n : nat) (d bias : Z) (toDial : gmap string NetAddress) s :
  map_Forall (fun k a => addr_ID a = k) toDial ->
  exists toDial' w' t,
    run h (pickLoop n d bias toDial) s =
      (Done toDial', mkState (msgCountByPeer s) w', t) /\
    loop_post n d bias toDial toDial' t.
Proof.
  revert toDial s. induction n as [| n IH]; intros toDial s Hid.
  { exists toDial, (world s), []. split; [by destruct s |].
    apply loop_post_stop; auto. }
  cbn [pickLoop].
  destruct (Z.ltb_spec (Z.of_nat (size toDial)) d) as [Hlt | Hge]; cycle 1.
  { exists toDial, (world s), []. split; [by destruct s |].
    apply loop_post_stop; auto. }
  rewrite run_bind, run_call.
  destruct (h _ (Book_PickAddress bias) (world s)) as [try w1]. cbn [fst snd].
  destruct try as [a |]; cycle 1.
  { destruct (IH toDial (mkState (msgCountByPeer s) w1) Hid)
      as (toDial' & w' & t & -> & Hpost).
    exists toDial', w', ([Ev (Book_PickAddress bias) None] ++ t).
    split; [reflexivity |].
    by apply (loop_post_rejected n d bias toDial toDial' None []). }
  destruct (toDial !! addr_ID a) as [a0 |] eqn:Hlook.
  { destruct (IH toDial (mkState (msgCountByPeer s) w1) Hid)
      as (toDial' & w' & t & -> & Hpost).
    exists toDial', w', ([Ev (Book_PickAddress bias) (Some a)] ++ t).
    split; [reflexivity |].
    by apply (loop_post_rejected n d bias toDial toDial' (Some a) []). }
  rewrite run_bind, run_call. cbn [msgCountByPeer world].
  destruct (h _ (Switch_IsDialing (addr_ID a)) w1) as [dialling w2]. cbn [fst snd].
  destruct dialling.
  { destruct (IH toDial (mkState (msgCountByPeer s) w2) Hid)
      as (toDial' & w' & t & -> & Hpost).
    exists toDial', w',
      ([Ev (Book_PickAddress bias) (Some a)] ++
       [Ev (Switch_IsDialing (addr_ID a)) true] ++ t).
    split; [reflexivity |].
    by apply (loop_post_rejected n d bias toDial toDial' (Some a)
                [Ev (Switch_IsDialing (addr_ID a)) true]). }
  rewrite run_bind, run_call. cbn [msgCountByPeer world].
  destruct (h _ (Switch_Peers_Has (addr_ID a)) w2) as [connected w3]. cbn [fst snd].
  destruct connected.
  { destruct (IH toDial (mkState (msgCountByPeer s) w3) Hid)
      as (toDial' & w' & t & -> & Hpost).
    exists toDial', w',
      ([Ev (Book_PickAddress bias) (Some a)] ++
       [Ev (Switch_IsDialing (addr_ID a)) false] ++
       [Ev (Switch_Peers_Has (addr_ID a)) true] ++ t).
    split; [reflexivity |].
    by apply (loop_post_rejected n d bias toDial toDial' (Some a)
                [Ev (Switch_IsDialing (addr_ID a)) false;
                 Ev (Switch_Peers_Has (addr_ID a)) true]). }
  rewrite run_bind, run_call. cbn [msgCountByPeer world].
  destruct (h _ (Logger_Info "Will dial address") w3) as [[] w4]. cbn [fst snd].
  assert (Hid' : map_Forall (fun k a => addr_ID a = k) (<[addr_ID a := a]> toDial))
    by (by apply map_Forall_insert_2).
  destruct (IH (<[addr_ID a := a]> toDial) (mkState (msgCountByPeer s) w4) Hid')
    as (toDial' & w' & t & -> & Hpost).
  exists toDial', w',
    (accepted_draw bias a ++ Ev (Logger_Info "Will dial address") tt :: t).
  split; [reflexivity |].
  by apply loop_post_accepted.
Qed.

(** *** ensurePeers: after the loop *)

Lemma run_dialPicked (items : list NetAddress) s :
  exists w',
    run h (dialPicked items) s =
      (Done tt, mkState (msgCountByPeer s) w', dial_events items).
Proof.
  revert s. induction items as [| a items IH]; intros s.
  - exists (world s). by destruct s.
  - cbn [dialPicked]. rewrite run_bind, run_call.
    destruct (h unit (Go (go_dial a)) (world s)) as [[] w1]. cbn [fst snd].
    destruct (IH (mkState (msgCountByPeer s) w1)) as [w' ->].
    exists w'. reflexivity.
Qed.

Lemma dial_events_observed (items : list NetAddress) :
  dials (dial_events items) = items /\ picks (dial_events items) = [] /\
  seed_dials (dial_events items) = [].
Proof.
  induction items as [| a items (IH1 & IH2 & IH3)]; [done |].
  repeat apply conj; [| exact IH2 | exact IH3].
  unfold dials, dial_events in *. cbn. by rewrite IH1.
Qed.

Lemma run_ensurePeers_askForMore r s :
  exists o w' t,
    run h (ensurePeers_askForMore r) s = (o, mkState (msgCountByPeer s) w', t) /\
    picks t = [] /\ dials t = [] /\ seed_dials t = [] /\
    book_mutations t = [] /\
    (rand_nonneg h -> o = Done tt).
Proof.
  unfold ensurePeers_askForMore. rewrite run_bind, run_call.
  destruct (h bool Book_NeedMoreAddrs (world s)) as [need w1]. cbn [fst snd].
  destruct need; cycle 1.
  { by exists (Done tt), w1, [Ev Book_NeedMoreAddrs false]. }
  rewrite run_bind, run_call. cbn [msgCountByPeer world].
  destruct (h _ Switch_Peers_List w1) as [peers w2]. cbn [fst snd].
  destruct (Z.ltb_spec 0 (Z.of_nat (length peers))) as [Hpos | Hzero]; cycle 1.
  { by exists (Done tt), w2, [Ev Book_NeedMoreAddrs true; Ev Switch_Peers_List peers]. }
  rewrite run_bind, run_call. cbn [msgCountByPeer world].
  pose proof (fun Hr : rand_nonneg h => Hr w2) as Hrnd.
  destruct (h Z rand_Int w2) as [rnd w3]. cbn [fst snd] in *.
  destruct (Z.ltb_spec (Z.rem rnd (Z.of_nat (length peers))) 0) as [Hneg | Hidx].
  { exists (Panicked "index out of range"), w3,
      [Ev Book_NeedMoreAddrs true; Ev Switch_Peers_List peers; Ev rand_Int rnd].
    repeat split; try done.
    intros Hr. specialize (Hrnd Hr).
    pose proof (Z.rem_nonneg rnd (Z.of_nat (length peers))). lia. }
  destruct (peers !! Z.to_nat (Z.rem rnd (Z.of_nat (length peers))))
    as [peer |] eqn:Hpeer.
  - rewrite run_bind, run_call. cbn [msgCountByPeer world].
    destruct (h unit (Logger_Info _) w3) as [[] w4]. cbn [fst snd].
    unfold RequestPEX. rewrite run_bind, run_call. cbn [msgCountByPeer world].
    destruct (h bool (Peer_Send peer PexChannel pexRequestMessage) w4)
      as [sent w5]. cbn [fst snd run].
    by eexists (Done tt), w5, _.
  - exists (Panicked "index out of range"), w3,
      [Ev Book_NeedMoreAddrs true; Ev Switch_Peers_List peers; Ev rand_Int rnd].
    repeat split; try done.
    intros Hr. specialize (Hrnd Hr).
    apply lookup_ge_None in Hpeer.
    pose proof (Z.rem_bound_pos rnd (Z.of_nat (length peers))). lia.
Qed.

Lemma run_ensurePeers_dialSeeds r (o i d : Z) (toDial : gmap string NetAddress) s :
  peer_counts o i d ->
  Z.of_nat (size toDial) <= minNumOutboundPeers ->
  exists w',
    run h (ensurePeers_dialSeeds r o i d toDial) s =
      (Done tt, mkState (msgCountByPeer s) w',
       seeds_trace r (o + i + d + Z.of_nat (size toDial) =? 0)).
Proof.
  intros (Ho & Hi & Hd & Hsum) Hsize. unfold ensurePeers_dialSeeds.
  unfold minNumOutboundPeers in *.
  assert (Hrange : forall z, 0 <= z <= o + i + d + 10 -> int_wrap z = z)
    by (intros z Hz; apply int_wrap_id; unfold max_int in *; lia).
  rewrite (Hrange (o + i)) by lia.
  rewrite (Hrange (o + i + d)) by lia.
  rewrite (Hrange (o + i + d + Z.of_nat (size toDial))) by lia.
  destruct (o + i + d + Z.of_nat (size toDial) =? 0).
  - rewrite run_bind, run_call. cbn [msgCountByPeer world].
    destruct (h unit (Logger_Info _) (world s)) as [[] w1]. cbn [fst snd].
    rewrite run_call. cbn [msgCountByPeer world].
    destruct (h unit (Switch_DialPeersAsync _ _) w1) as [[] w2]. cbn [fst snd].
    by exists w2.
  - exists (world s). by destruct s.
Qed.

(** *** ensurePeers *)

(** The run of [ensurePeers] when peers are missing: the query and the log
    line, the selection loop, one goroutine per selected address, the
    request for more addresses and, unless that part panicked, the seeds
    fallback. *)
Lemma run_ensurePeers_dialing r s (o i d : Z) :
  (h _ Switch_NumPeers (world s)).1 = (o, i, d) ->
  peer_counts o i d ->
  o + d < minNumOutboundPeers ->
  let n := minNumOutboundPeers - (o + d) in
  exists out s' toDial t_loop t_ask reached,
    run h (ensurePeers r) s =
      (out, s',
       [Ev Switch_NumPeers (o, i, d); Ev (Logger_Info "Ensure peers") tt] ++
       t_loop ++ dial_events (snd <$> map_to_list toDial) ++ t_ask ++
       seeds_trace r (reached && (o + i + d + Z.of_nat (size toDial) =? 0))) /\
    loop_post (Z.to_nat (3 * n)) n (newBias o) ∅ toDial t_loop /\
    picks t_ask = [] /\ dials t_ask = [] /\ seed_dials t_ask = [] /\
    (rand_nonneg h -> reached = true /\ out = Done tt).
Proof.
  intros Hnum Hcounts Hlow n.
  pose proof Hcounts as (Ho & Hi & Hd & Hsum).
  unfold minNumOutboundPeers in *.
  unfold ensurePeers. rewrite run_bind, run_call.
  destruct (h _ Switch_NumPeers (world s)) as [nums w1].
  cbn [fst snd] in *. subst nums.
  rewrite run_bind, run_call. cbn [msgCountByPeer world].
  destruct (h unit (Logger_Info "Ensure peers") w1) as [[] w2]. cbn [fst snd].
  unfold minNumOutboundPeers.
  rewrite (int_wrap_id (o + d)) by (unfold max_int in *; lia).
  rewrite (int_wrap_id (10 - (o + d))) by (unfold max_int in *; lia).
  fold n.
  destruct (Z.leb_spec n 0) as [Hle | Hpos]; [subst n; lia |].
  rewrite (int_wrap_id (n * 3)) by (unfold max_int in *; subst n; lia).
  replace (n * 3) with (3 * n) by lia.
  rewrite run_bind.
  destruct (run_pickLoop (Z.to_nat (3 * n)) n (newBias o) ∅
              (mkState (msgCountByPeer s) w2) (map_Forall_empty _))
    as (toDial & w3 & t_loop & -> & Hpost).
  cbn [msgCountByPeer].
  assert (Hsize : Z.of_nat (size toDial) <= 10).
  { destruct Hpost as (_ & _ & _ & _ & Hsz & _).
    rewrite map_size_empty in Hsz. subst n. lia. }
  unfold ensurePeers_finish. rewrite run_bind.
  destruct (run_dialPicked (snd <$> map_to_list toDial)
              (mkState (msgCountByPeer s) w3)) as [w4 ->].
  cbn [msgCountByPeer]. rewrite run_bind.
  destruct (run_ensurePeers_askForMore r (mkState (msgCountByPeer s) w4))
    as (o_ask & w5 & t_ask & -> & Hp & Hdl & Hsd & _ & Hdone).
  cbn [msgCountByPeer].
  destruct o_ask as [[] | m].
  - destruct (run_ensurePeers_dialSeeds r o i d toDial
                (mkState (msgCountByPeer s) w5) Hcounts Hsize) as [w6 ->].
    exists (Done tt), (mkState (msgCountByPeer s) w6), toDial, t_loop, t_ask, true.
    rewrite andb_true_l.
    split; [reflexivity |]. split; [exact Hpost |]. by repeat split.
  - exists (Panicked m), (mkState (msgCountByPeer s) w5), toDial, t_loop, t_ask, false.
    cbn [andb seeds_trace]. rewrite app_nil_r.
    split; [reflexivity |]. split; [exact Hpost |].
    repeat apply conj; try done.
    intros Hr. by specialize (Hdone Hr).
Qed.

(** With enough outbound and pending connections the run is the query, the
    log line and the return. *)
Lemma run_ensurePeers_satisfied r s (o i d : Z) :
  (h _ Switch_NumPeers (world s)).1 = (o, i, d) ->
  o + d <= max_int ->
  minNumOutboundPeers <= o + d ->
  (run h (ensurePeers r) s).1.1 = Done tt /\
  (run h (ensurePeers r) s).2 =
    [Ev Switch_NumPeers (o, i, d); Ev (Logger_Info "Ensure peers") tt].
Proof.
  intros Hnum Hfit Henough. unfold minNumOutboundPeers in *.
  unfold ensurePeers. rewrite run_bind, run_call.
  destruct (h _ Switch_NumPeers (world s)) as [nums w1].
  cbn [fst snd] in *. subst nums.
  rewrite run_bind, run_call. cbn [msgCountByPeer world].
  destruct (h unit (Logger_Info "Ensure peers") w1) as [[] w2]. cbn [fst snd].
  unfold minNumOutboundPeers.
  rewrite (int_wrap_id (o + d)) by (unfold max_int in *; lia).
  rewrite (int_wrap_id (10 - (o + d))) by (unfold max_int in *; lia).
  destruct (Z.leb_spec (10 - (o + d)) 0) as [_ | Hpos]; [| lia].
  split; reflexivity.
Qed.

(** C5: when the switch reports [outbound + dialing >= 10], one run of
    [ensurePeers] consists of the [NumPeers] query and the log line and
    then returns: no address is drawn, no dial goroutine is started,
    nothing is sent, the seeds are not dialed and the book is not
    changed. *)
Theorem ensurePeers_enough_peers r s (o i d : Z) :
  (h _ Switch_NumPeers (world s)).1 = (o, i, d) ->
  o + d <= max_int ->
  minNumOutboundPeers <= o + d ->
  let res := run h (ensurePeers r) s in
  res.1.1 = Done tt /\
  res.2 = [Ev Switch_NumPeers (o, i, d); Ev (Logger_Info "Ensure peers") tt] /\
  picks res.2 = [] /\ dials res.2 = [] /\ sends res.2 = [] /\
  seed_dials res.2 = [] /\ book_mutations res.2 = [].
Proof.
  intros Hnum Hfit Henough res. subst res.
  destruct (run_ensurePeers_satisfied r s o i d Hnum Hfit Henough) as [-> ->].
  repeat split.
Qed.

Lemma seeds_trace_observed r (b : bool) :
  picks (seeds_trace r b) = [] /\ dials (seeds_trace r b) = [] /\
  seed_dials (seeds_trace r b) = (if b then [(Seeds (config r), false)] else []).
Proof. by destruct b. Qed.

(** What the observers see in a trace of the shape established by
    [run_ensurePeers_dialing]. *)
Lemma ensurePeers_trace_observed r (nums : Z * Z * Z)
    (t_loop t_ask : list Event) (items : list NetAddress) (b : bool) :
  dials t_loop = [] -> seed_dials t_loop = [] ->
  picks t_ask = [] -> dials t_ask = [] -> seed_dials t_ask = [] ->
  let t := [Ev Switch_NumPeers nums; Ev (Logger_Info "Ensure peers") tt] ++
           t_loop ++ dial_events items ++ t_ask ++ seeds_trace r b in
  picks t = picks t_loop /\ dials t = items /\
  seed_dials t = (if b then [(Seeds (config r), false)] else []).
Proof.
  intros Hd1 Hs1 Hp2 Hd2 Hs2 t. subst t.
  destruct (dial_events_observed items) as (Hd3 & Hp3 & Hs3).
  destruct (seeds_trace_observed r b) as (Hp4 & Hd4 & Hs4).
  unfold picks, dials, seed_dials in *.
  rewrite !omap_app, !Hd1, !Hs1, !Hp2, !Hd2, !Hs2, !Hd3, !Hp3, !Hs3,
    !Hp4, !Hd4, !Hs4.
  cbn [omap list_omap pick_of dial_of spawned_of seed_dial_of app].
  by rewrite !app_nil_r.
Qed.

(** C6: in a run of [ensurePeers] with deficit d = 10 - (outbound +
    dialing) > 0, at most 3 d addresses are drawn from the picker; dial
    goroutines are started for at most d addresses, whose peer IDs are
    pairwise distinct; each of them was drawn from the picker and the
    switch then answered that it is neither being dialed nor connected; and
    rejected draws use up attempts: if fewer than d addresses were
    selected, all 3 d draws have been made. *)
Theorem ensurePeers_selection r s (o i d : Z) :
  (h _ Switch_NumPeers (world s)).1 = (o, i, d) ->
  peer_counts o i d ->
  let deficit := minNumOutboundPeers - (o + d) in
  0 < deficit ->
  let t := (run h (ensurePeers r) s).2 in
  Z.of_nat (length (picks t)) <= 3 * deficit /\
  Z.of_nat (length (dials t)) <= deficit /\
  NoDup (addr_ID <$> dials t) /\
  (forall a, a ∈ dials t -> selected_in t (newBias o) a) /\
  (Z.of_nat (length (dials t)) < deficit ->
   Z.of_nat (length (picks t)) = 3 * deficit).
Proof.
  intros Hnum Hcounts deficit Hpos t. subst t.
  destruct (run_ensurePeers_dialing r s o i d Hnum Hcounts ltac:(subst deficit; lia))
    as (out & s' & toDial & t_loop & t_ask & reached & -> & Hpost & Hp & Hdl & Hsd & _).
  fold deficit in Hpost. cbn [snd].
  destruct Hpost as (_ & Hid & Hlen & _ & Hsize & Hfull & Hsel & Hd1 & Hs1 & _).
  destruct (ensurePeers_trace_observed r (o, i, d) t_loop t_ask
              (snd <$> map_to_list toDial)
              (reached && (o + i + d + Z.of_nat (size toDial) =? 0))
              Hd1 Hs1 Hp Hdl Hsd) as (-> & -> & _).
  rewrite map_size_empty in Hsize.
  rewrite length_fmap, length_map_to_list.
  repeat apply conj.
  - lia.
  - lia.
  - rewrite <- list_fmap_compose.
    rewrite (list_fmap_ext (addr_ID ∘ snd) fst (map_to_list toDial)).
    + apply NoDup_fst_map_to_list.
    + intros idx [k a] Hka. apply list_elem_of_lookup_2 in Hka.
      apply elem_of_map_to_list in Hka. simpl. by apply (Hid k a).
  - intros a Ha. apply list_elem_of_fmap in Ha as ([k a'] & -> & Hka).
    apply elem_of_map_to_list in Hka. simpl.
    destruct (Hsel k a' Hka) as [Hempty | Hin]; [by rewrite lookup_empty in Hempty |].
    apply (selected_in_later
             [Ev Switch_NumPeers (o, i, d); Ev (Logger_Info "Ensure peers") tt]).
    destruct Hin as (t1 & t2 & ->).
    exists t1, (t2 ++ dial_events (snd <$> map_to_list toDial) ++ t_ask ++
                seeds_trace r (reached && (o + i + d + Z.of_nat (size toDial) =? 0))).
    by rewrite <- !app_assoc.
  - intros Hlt. rewrite Hfull by lia. lia.
Qed.

(** C7: in one run of [ensurePeers] the seed list is handed to
    [DialPeersAsync] exactly once when the outbound, inbound and dialing
    counts and the number of addresses selected in this run are all zero,
    and not at all otherwise. *)
Theorem ensurePeers_seeds r s (o i d : Z) :
  rand_nonneg h ->
  (h _ Switch_NumPeers (world s)).1 = (o, i, d) ->
  peer_counts o i d ->
  let t := (run h (ensurePeers r) s).2 in
  seed_dials t =
    if (o =? 0) && (i =? 0) && (d =? 0) && (Z.of_nat (length (dials t)) =? 0)
    then [(Seeds (config r), false)]
    else [].
Proof.
  intros Hrand Hnum Hcounts t. subst t.
  pose proof Hcounts as (Ho & Hi & Hd & Hsum).
  destruct (Z.lt_ge_cases (o + d) minNumOutboundPeers) as [Hlow | Henough].
  - destruct (run_ensurePeers_dialing r s o i d Hnum Hcounts Hlow)
      as (out & s' & toDial & t_loop & t_ask & reached & -> & Hpost & Hp & Hdl & Hsd & Hr).
    destruct (Hr Hrand) as [-> _]. cbn [snd]. rewrite andb_true_l.
    destruct Hpost as (_ & _ & _ & _ & _ & _ & _ & Hd1 & Hs1 & _).
    destruct (ensurePeers_trace_observed r (o, i, d) t_loop t_ask
                (snd <$> map_to_list toDial)
                (o + i + d + Z.of_nat (size toDial) =? 0)
                Hd1 Hs1 Hp Hdl Hsd) as (_ & -> & ->).
    rewrite length_fmap, length_map_to_list.
    destruct (Z.eqb_spec (o + i + d + Z.of_nat (size toDial)) 0) as [Hz | Hnz].
    + replace o with 0 by lia. replace i with 0 by lia. replace d with 0 by lia.
      replace (Z.of_nat (size toDial)) with 0 by lia. reflexivity.
    + destruct (Z.eqb_spec o 0), (Z.eqb_spec i 0), (Z.eqb_spec d 0),
        (Z.eqb_spec (Z.of_nat (size toDial)) 0); try reflexivity. lia.
  - destruct (run_ensurePeers_satisfied r s o i d Hnum
                ltac:(unfold minNumOutboundPeers, max_int in *; lia) Henough)
      as (_ & ->). cbn [seed_dials omap list_omap seed_dial_of].
    unfold minNumOutboundPeers in *.
    destruct (Z.eqb_spec o 0), (Z.eqb_spec d 0); try (by rewrite ?andb_false_r).
    lia.
Qed.

(** C4: for every outbound count n >= 0 the bias computed by [ensurePeers]
    is min(n, 8) * 10 + 10: it lies between 10 and 90, does not decrease
    when n grows, is 10 at n = 0, 90 at n = 8 and 90 again at n = 12; and
    it is the bias of every draw that a run of [ensurePeers] makes when the
    switch reports n outbound peers. *)
Theorem newBias_spec (n : Z) :
  0 <= n ->
  newBias n = Z.min n 8 * 10 + 10 /\
  10 <= newBias n <= 90 /\
  (forall m, 0 <= m <= n -> newBias m <= newBias n) /\
  newBias 0 = 10 /\ newBias 8 = 90 /\ newBias 12 = 90 /\
  (forall r s (i d : Z),
     (h _ Switch_NumPeers (world s)).1 = (n, i, d) ->
     peer_counts n i d ->
     Forall (fun pk => pk.1 = Z.min n 8 * 10 + 10)
            (picks (run h (ensurePeers r) s).2)).
Proof.
  intros Hn. rewrite (newBias_formula n Hn).
  repeat apply conj; try reflexivity; try lia.
  - intros m Hm. rewrite (newBias_formula m) by lia. lia.
  - intros r s i d Hnum Hcounts.
    pose proof Hcounts as (_ & Hi & Hd & Hsum).
    destruct (Z.lt_ge_cases (n + d) minNumOutboundPeers) as [Hlow | Henough].
    + destruct (run_ensurePeers_dialing r s n i d Hnum Hcounts Hlow)
        as (out & s' & toDial & t_loop & t_ask & reached & -> & Hpost & Hp & Hdl & Hsd & _).
      cbn [snd].
      destruct Hpost as (_ & _ & _ & Hbias & _ & _ & _ & Hd1 & Hs1 & _).
      destruct (ensurePeers_trace_observed r (n, i, d) t_loop t_ask
                  (snd <$> map_to_list toDial)
                  (reached && (n + i + d + Z.of_nat (size toDial) =? 0))
                  Hd1 Hs1 Hp Hdl Hsd) as (-> & _ & _).
      by rewrite (newBias_formula n Hn) in Hbias.
    + destruct (run_ensurePeers_satisfied r s n i d Hnum
                  ltac:(unfold minNumOutboundPeers, max_int in *; lia) Henough)
        as (_ & ->).
      constructor.
Qed.

End Properties.

(* ------------------------------------------------------------------------- *)
(** ** The theorems at concrete inputs *)

(** The bias at twelve outbound peers. *)
Lemma newBias_spec_witness :
  0 <= 12 /\ newBias 12 = Z.min 12 8 * 10 + 10 /\ 10 <= newBias 12 <= 90.
Proof.
  split; [lia |].
  destruct (newBias_spec script_handler 12 ltac:(lia)) as (Heq & Hrange & _).
  split; [exact Heq | exact Hrange].
Defined.

(** An outbound peer joins while the book wants addresses: one Request. *)
Lemma AddPeer_spec_witness :
  IsOutbound peerB = true /\
  (script_handler bool Book_NeedMoreAddrs idle_script).1 = true /\
  sends (run script_handler (AddPeer reactor0 peerB) (fresh idle_script)).2 =
    [(peerB, PexChannel, pexRequestMessage)].
Proof.
  split; [reflexivity |]. split; [reflexivity |].
  destruct (AddPeer_spec script_handler reactor0 peerB (fresh idle_script))
    as (Hneed & _ & _).
  destruct (Hneed eq_refl eq_refl) as [Hsent _]. exact Hsent.
Defined.

(** The book was started by somebody else: the reactor starts all the same. *)
Lemma OnStart_spec_witness :
  (script_handler _ BaseReactor_OnStart full_script).1 = None /\
  (run script_handler (OnStart reactor0) (fresh full_script)).1.1 = Done None /\
  spawned (run script_handler (OnStart reactor0) (fresh full_script)).2 =
    [go_ensurePeersRoutine; go_flushMsgCountByPeer].
Proof.
  split; [reflexivity |].
  exact (OnStart_spec script_handler reactor0 (fresh full_script) eq_refl).
Defined.

(** [Addrs [A, nil, B]] from peer A, well under the limit. *)
Lemma Receive_Addrs_spec_witness :
  let srcAddr := NodeInfo_NetAddress peerA in
  uint16_wrap (count_of (fresh idle_script) (addr_ID srcAddr) + 1)
    < maxMsgCountByPeer reactor0 /\
  toy_ReadBinary addrs_A_nil_B maxPexMessageSize =
    (pexAddrsMessage [Some (mkNetAddress "A" "" 0); None; Some (mkNetAddress "B" "" 0)],
     None) /\
  added (run script_handler
           (Receive toy_ReadBinary reactor0 PexChannel peerA addrs_A_nil_B)
           (fresh idle_script)).2 =
    [(mkNetAddress "A" "" 0, srcAddr); (mkNetAddress "B" "" 0, srcAddr)].
Proof.
  intros srcAddr.
  assert (Hlim : uint16_wrap (count_of (fresh idle_script) (addr_ID srcAddr) + 1)
                 < maxMsgCountByPeer reactor0) by (vm_compute; reflexivity).
  assert (Hdec : toy_ReadBinary addrs_A_nil_B maxPexMessageSize =
                 (pexAddrsMessage [Some (mkNetAddress "A" "" 0); None;
                                   Some (mkNetAddress "B" "" 0)], None))
    by reflexivity.
  split; [exact Hlim |]. split; [exact Hdec |].
  destruct (Receive_Addrs_spec script_handler toy_ReadBinary reactor0 PexChannel
              Byte.x02 peerA [Byte.x41; Byte.x00; Byte.x42] (fresh idle_script)
              _ Hlim Hdec) as (_ & _ & _ & _ & HAB).
  exact (HAB _ _ eq_refl).
Defined.

(** Threshold 2: the second message of the window is dropped. *)
Lemma Receive_drops_Nth_message_witness :
  maxMsgCountByPeer reactor_max2 = 2 /\ 1 <= 2 <= 65535 /\
  Z.of_nat (sent_by "peerA" [(peerB, [msgTypeRequest]); (peerA, [msgTypeRequest])])
    = 2 - 1 /\
  (run script_handler
     (Receive toy_ReadBinary reactor_max2 PexChannel peerA [msgTypeRequest])
     after_first_message).2 =
    [Ev (Logger_Error "Maximum number of messages reached for peer") tt].
Proof.
  assert (Hsent : Z.of_nat (sent_by "peerA"
                    [(peerB, [msgTypeRequest]); (peerA, [msgTypeRequest])]) = 2 - 1)
    by (vm_compute; reflexivity).
  split; [reflexivity |]. split; [lia |]. split; [exact Hsent |].
  destruct (Receive_drops_Nth_message script_handler toy_ReadBinary reactor_max2
              PexChannel peerA [msgTypeRequest]
              [(peerB, [msgTypeRequest]); (peerA, [msgTypeRequest])]
              idle_script 2 eq_refl ltac:(lia) Hsent) as (_ & Htrace & _).
  exact Htrace.
Defined.

(** The 65536th message of a window resets the sender's counter. *)
Lemma Receive_counter_wraps_witness :
  count_of saturated "peerA" = 65535 /\
  msgCountByPeer
    (run script_handler
       (Receive toy_ReadBinary reactor0 PexChannel peerA [msgTypeRequest])
       saturated).1.2 !! "peerA" = Some 0.
Proof.
  assert (Hc : count_of saturated "peerA" = 65535) by (vm_compute; reflexivity).
  split; [exact Hc |].
  exact (Receive_counter_wraps script_handler toy_ReadBinary reactor0 PexChannel
           peerA [msgTypeRequest] saturated Hc).
Defined.

(** Seven outbound peers and three pending dials: nothing to do. *)
Lemma ensurePeers_enough_peers_witness :
  (script_handler _ Switch_NumPeers full_script).1 = (7, 2, 3) /\
  7 + 3 <= max_int /\ minNumOutboundPeers <= 7 + 3 /\
  (run script_handler (ensurePeers reactor0) (fresh full_script)).2 =
    [Ev Switch_NumPeers (7, 2, 3); Ev (Logger_Info "Ensure peers") tt].
Proof.
  assert (Hfit : 7 + 3 <= max_int) by (unfold max_int; lia).
  assert (Hen : minNumOutboundPeers <= 7 + 3) by (unfold minNumOutboundPeers; lia).
  split; [reflexivity |]. split; [exact Hfit |]. split; [exact Hen |].
  destruct (ensurePeers_enough_peers script_handler reactor0 (fresh full_script)
              7 2 3 eq_refl Hfit Hen) as (_ & Htrace & _).
  exact Htrace.
Defined.

(** Deficit 2 with a picker that repeats itself and offers busy peers. *)
Lemma ensurePeers_selection_witness :
  let t := (run script_handler (ensurePeers reactor0) (fresh short_script)).2 in
  (script_handler _ Switch_NumPeers short_script).1 = (8, 1, 0) /\
  peer_counts 8 1 0 /\ 0 < minNumOutboundPeers - (8 + 0) /\
  Z.of_nat (length (picks t)) <= 3 * (minNumOutboundPeers - (8 + 0)) /\
  Z.of_nat (length (dials t)) <= minNumOutboundPeers - (8 + 0) /\
  NoDup (addr_ID <$> dials t).
Proof.
  intros t.
  assert (Hpos : 0 < minNumOutboundPeers - (8 + 0))
    by (unfold minNumOutboundPeers; lia).
  assert (Hcounts : peer_counts 8 1 0)
    by (unfold peer_counts, minNumOutboundPeers, max_int; lia).
  split; [reflexivity |]. split; [exact Hcounts |]. split; [exact Hpos |].
  destruct (ensurePeers_selection script_handler reactor0 (fresh short_script)
              8 1 0 eq_refl Hcounts Hpos) as (Hp & Hd & Hnd & _).
  split; [exact Hp |]. split; [exact Hd | exact Hnd].
Defined.

(** An isolated node with an empty book falls back to the seeds. *)
Lemma ensurePeers_seeds_witness :
  rand_nonneg script_handler /\
  (script_handler _ Switch_NumPeers idle_script).1 = (0, 0, 0) /\
  peer_counts 0 0 0 /\
  seed_dials (run script_handler (ensurePeers reactor0) (fresh idle_script)).2 =
    [(["seed.example.com:46656"], false)].
Proof.
  assert (Hrand : rand_nonneg script_handler) by (intros w; simpl; lia).
  assert (Hcounts : peer_counts 0 0 0)
    by (unfold peer_counts, minNumOutboundPeers, max_int; lia).
  split; [exact Hrand |]. split; [reflexivity |]. split; [exact Hcounts |].
  rewrite (ensurePeers_seeds script_handler reactor0 (fresh idle_script) 0 0 0
             Hrand eq_refl Hcounts).
  vm_compute. reflexivity.
Defined.

(** *** Runs of the code on the inputs where it departs from the text *)

(** Threshold 2, fresh window, two Request messages from peer A (and one
    from peer B in between): the first is answered, the second is dropped. *)
Example Receive_two_requests_max2 :
  sends (run script_handler
           (Receive toy_ReadBinary reactor_max2 PexChannel peerA [msgTypeRequest])
           (fresh idle_script)).2 = [(peerA, PexChannel, pexAddrsMessage [])] /\
  (run script_handler
     (Receive toy_ReadBinary reactor_max2 PexChannel peerA [msgTypeRequest])
     after_first_message).2 =
    [Ev (Logger_Error "Maximum number of messages reached for peer") tt].
Proof. split; vm_compute; reflexivity. Qed.

(** Threshold 1: the very first message of a window is dropped. *)
Example Receive_first_request_max1 :
  (run script_handler
     (Receive toy_ReadBinary (SetMaxMsgCountByPeer reactor0 1) PexChannel peerA
        [msgTypeRequest])
     (fresh idle_script)).2 =
    [Ev (Logger_Error "Maximum number of messages reached for peer") tt].
Proof. vm_compute. reflexivity. Qed.

(** An empty message from a peer under the limit: [Receive] panics, after
    it has counted the message. *)
Example Receive_empty_message_panics :
  let res := run script_handler
               (Receive toy_ReadBinary reactor0 PexChannel peerA [])
               (fresh idle_script) in
  res.1.1 = Panicked "index out of range" /\ res.2 = [] /\
  count_of res.1.2 "peerA" = 1.
Proof. vm_compute. repeat split. Qed.

(** After the wrap-around the limiter lets the sender through again: with
    the default threshold of 1000 the message after the 65535th is answered. *)
Example Receive_after_wrap_is_processed :
  sends (run script_handler
           (Receive toy_ReadBinary reactor0 PexChannel peerA [msgTypeRequest])
           saturated).2 = [(peerA, PexChannel, pexAddrsMessage [])].
Proof. vm_compute. reflexivity. Qed.

(** The selection of [short_script]: six draws, C and E selected. *)
Example ensurePeers_short_script :
  let t := (run script_handler (ensurePeers reactor0) (fresh short_script)).2 in
  length (picks t) = 6%nat /\ dials t = [addrC; addrE] \/
  length (picks t) = 6%nat /\ dials t = [addrE; addrC].
Proof. vm_compute. tauto. Qed.

(* ------------------------------------------------------------------------- *)
(** ** Further properties *)

Section CallFacts.

Context {W : Type}.
Variable h : forall X : Type, extE X -> W -> X * W.

Lemma store_free_bind {A B : Type} (p : Prog A) (f : A -> Prog B) :
  store_free p -> (forall a, store_free (f a)) -> store_free (p ≫= f).
Proof.
  unfold mbind, Prog_bind. intros Hp Hf.
  induction p as [a | m | X e k IH | X o k IH]; simpl in *; auto;
    try contradiction.
Qed.

Lemma only_calls_bind (ok : forall X : Type, extE X -> bool) {A B : Type}
    (p : Prog A) (f : A -> Prog B) :
  only_calls ok p -> (forall a, only_calls ok (f a)) -> only_calls ok (p ≫= f).
Proof.
  unfold mbind, Prog_bind. intros Hp Hf.
  induction p as [a | m | X e k IH | X o k IH]; simpl in *; auto.
  destruct Hp as [He Hk]. split; auto.
Qed.

(** A program that does not touch the counter map leaves it as it is, and
    what it does is the same whatever the map holds. *)
Lemma run_store_free {A : Type} (p : Prog A) (w : W) :
  store_free p ->
  exists o w' t, forall m : gmap string Z,
    run h p (mkState m w) = (o, mkState m w', t).
Proof.
  revert w. induction p as [a | msg | X e k IH | X o k IH]; intros w Hp.
  - exists (Done a), w, []. reflexivity.
  - exists (Panicked msg), w, []. reflexivity.
  - simpl in Hp. destruct (h X e w) as [x w1] eqn:Hh.
    destruct (IH x w1 (Hp x)) as (o & w' & t & Hrun).
    exists o, w', (Ev e x :: t). intros m. simpl. rewrite Hh, Hrun. reflexivity.
  - contradiction.
Qed.

(** Every logged call of a run passes the test the program was shown to
    pass. *)
Lemma run_only_calls (ok : forall X : Type, extE X -> bool) {A : Type}
    (p : Prog A) (s : State W) :
  only_calls ok p -> Forall (event_ok ok) (run h p s).2.
Proof.
  revert s. induction p as [a | msg | X e k IH | X o k IH]; intros s Hp; simpl.
  - constructor.
  - constructor.
  - destruct Hp as [He Hk]. destruct (h X e (world s)) as [x w1].
    specialize (IH x (mkState (msgCountByPeer s) w1) (Hk x)).
    destruct (run h (k x) _) as [[o s'] t]. simpl in *.
    constructor; [exact He | exact IH].
  - destruct (cmap_step o (msgCountByPeer s)) as [x m']. apply IH, Hp.
Qed.

End CallFacts.

Section ReceiveFacts.

Context {W : Type}.
Variable h : forall X : Type, extE X -> W -> X * W.
Variable wire_ReadBinary : list Byte.byte -> Z -> PexMessage * option error.

Implicit Types (r : PEXReactor) (s : State W) (src : Peer).

Lemma store_free_Receive_addrs (addrs : list NetAddressPtr) (srcAddr : NetAddress) :
  store_free (Receive_addrs addrs srcAddr).
Proof.
  induction addrs as [| [a |] rest IH]; simpl; auto.
Qed.

Lemma store_free_Receive_dispatch r src (msgBytes : list Byte.byte) :
  store_free (Receive_dispatch wire_ReadBinary r src msgBytes).
Proof.
  unfold Receive_dispatch, DecodeMessage.
  destruct msgBytes as [| b bz]; [exact I |].
  destruct (wire_ReadBinary (b :: bz) maxPexMessageSize) as [msg [e |]].
  - simpl. auto.
  - destruct msg as [| addrs |]; simpl; auto.
    intros _. apply store_free_Receive_addrs.
Qed.

Lemma only_calls_Receive_addrs src (addrs : list NetAddressPtr) :
  only_calls (Receive_call src) (Receive_addrs addrs (NodeInfo_NetAddress src)).
Proof.
  induction addrs as [| [a |] rest IH]; simpl; auto.
  split; [apply bool_decide_eq_true_2; reflexivity | auto].
Qed.

Lemma only_calls_Receive r (chID : Byte.byte) src (msgBytes : list Byte.byte) :
  only_calls (Receive_call src) (Receive wire_ReadBinary r chID src msgBytes).
Proof.
  unfold Receive, IncrementMsgCountForPeer, ReachedMaxMsgCountForPeer.
  simpl. intros countI [] [count |]; [| exact I]. simpl.
  destruct (maxMsgCountByPeer r <=? count); [simpl; auto |].
  unfold Receive_dispatch, DecodeMessage.
  destruct msgBytes as [| b bz]; [exact I |].
  destruct (wire_ReadBinary (b :: bz) maxPexMessageSize) as [msg [e |]].
  - simpl. auto.
  - destruct msg as [| addrs |]; simpl.
    + split; [reflexivity |]. intros _. split; [reflexivity |]. intros sel.
      split; [| auto]. rewrite bool_decide_eq_true_2 by reflexivity. reflexivity.
    + split; [reflexivity |]. intros _. apply only_calls_Receive_addrs.
    + auto.
Qed.

(** X1. A Request that passes the limiter is answered with one Addrs message
    to the sender on the PEX channel, carrying the selection exactly as the
    address book returned it (empty or with nil entries included); the book
    is not changed and [Receive] returns whether or not the send succeeded. *)
Theorem Receive_Request_reply r (chID b : Byte.byte) src (bz : list Byte.byte) s :
  let srcAddr := NodeInfo_NetAddress src in
  let res := run h (Receive wire_ReadBinary r chID src (b :: bz)) s in
  let w1 := (h unit (Logger_Debug "Received message") (world s)).2 in
  let sel := (h _ Book_GetSelection w1).1 in
  uint16_wrap (count_of s (addr_ID srcAddr) + 1) < maxMsgCountByPeer r ->
  wire_ReadBinary (b :: bz) maxPexMessageSize = (pexRequestMessage, None) ->
  res.1.1 = Done tt /\
  sends res.2 = [(src, PexChannel, pexAddrsMessage sel)] /\
  book_mutations res.2 = [] /\
  length res.2 = 3%nat.
Proof.
  intros srcAddr res w1 sel Hlim Hdec. subst res sel w1.
  rewrite run_Receive. fold srcAddr.
  destruct (Z.leb_spec (maxMsgCountByPeer r)
              (uint16_wrap (count_of s (addr_ID srcAddr) + 1))) as [Hle | _];
    [lia |].
  unfold Receive_dispatch.
  rewrite run_bind, DecodeMessage_nonempty, Hdec. cbn [fst snd].
  rewrite run_bind, run_call. cbn [counted msgCountByPeer world fst snd].
  destruct (h unit (Logger_Debug "Received message") (world s)) as [[] w1].
  cbn [fst snd].
  rewrite run_bind, run_call. cbn [msgCountByPeer world fst snd].
  destruct (h _ Book_GetSelection w1) as [sel w2]. cbn [fst snd].
  unfold SendAddrs. rewrite run_bind, run_call. cbn [msgCountByPeer world fst snd].
  destruct (h bool (Peer_Send src PexChannel (pexAddrsMessage sel)) w2) as [sent w3].
  cbn [fst snd run app]. repeat split.
Qed.

(** X2. When the reader reports an error on a non-empty message that passed
    the limiter, [Receive] writes one log line and returns; whatever value
    the reader produced along with the error is ignored: nothing is sent and
    the book is not called. *)
Theorem Receive_decode_error r (chID b : Byte.byte) src (bz : list Byte.byte) s
    (msg : PexMessage) (e : error) :
  let srcAddr := NodeInfo_NetAddress src in
  let res := run h (Receive wire_ReadBinary r chID src (b :: bz)) s in
  uint16_wrap (count_of s (addr_ID srcAddr) + 1) < maxMsgCountByPeer r ->
  wire_ReadBinary (b :: bz) maxPexMessageSize = (msg, Some e) ->
  res.1.1 = Done tt /\
  res.2 = [Ev (Logger_Error "Error decoding message") tt].
Proof.
  intros srcAddr res Hlim Hdec. subst res.
  rewrite run_Receive. fold srcAddr.
  destruct (Z.leb_spec (maxMsgCountByPeer r)
              (uint16_wrap (count_of s (addr_ID srcAddr) + 1))) as [Hle | _];
    [lia |].
  unfold Receive_dispatch.
  rewrite run_bind, DecodeMessage_nonempty, Hdec. cbn [fst snd].
  rewrite run_call.
  destruct (h unit _ _) as [[] w1]. split; reflexivity.
Qed.

(** X3. A message that decodes without error to a value that is neither a
    Request nor an Addrs message is logged and ignored. *)
Theorem Receive_unknown_variant r (chID b : Byte.byte) src (bz : list Byte.byte) s :
  let srcAddr := NodeInfo_NetAddress src in
  let res := run h (Receive wire_ReadBinary r chID src (b :: bz)) s in
  uint16_wrap (count_of s (addr_ID srcAddr) + 1) < maxMsgCountByPeer r ->
  wire_ReadBinary (b :: bz) maxPexMessageSize = (pexOtherValue, None) ->
  res.1.1 = Done tt /\
  res.2 = [Ev (Logger_Debug "Received message") tt;
           Ev (Logger_Error "Unknown message type") tt].
Proof.
  intros srcAddr res Hlim Hdec. subst res.
  rewrite run_Receive. fold srcAddr.
  destruct (Z.leb_spec (maxMsgCountByPeer r)
              (uint16_wrap (count_of s (addr_ID srcAddr) + 1))) as [Hle | _];
    [lia |].
  unfold Receive_dispatch.
  rewrite run_bind, DecodeMessage_nonempty, Hdec. cbn [fst snd].
  rewrite run_bind, run_call. cbn [counted msgCountByPeer world fst snd].
  destruct (h unit (Logger_Debug "Received message") (world s)) as [[] w1].
  cbn [fst snd]. rewrite run_call. cbn [msgCountByPeer world].
  destruct (h unit _ w1) as [[] w2]. split; reflexivity.
Qed.

(** X4. An empty message from a peer under its limit makes [Receive] panic:
    no collaborator has been called, and the message has been counted. *)
Theorem Receive_empty_message r (chID : Byte.byte) src s :
  let peerID := addr_ID (NodeInfo_NetAddress src) in
  let res := run h (Receive wire_ReadBinary r chID src []) s in
  uint16_wrap (count_of s peerID + 1) < maxMsgCountByPeer r ->
  res.1.1 = Panicked "index out of range" /\ res.2 = [] /\
  msgCountByPeer res.1.2 !! peerID = Some (uint16_wrap (count_of s peerID + 1)).
Proof.
  intros peerID res Hlim. subst res.
  rewrite run_Receive. fold peerID.
  destruct (Z.leb_spec (maxMsgCountByPeer r)
              (uint16_wrap (count_of s peerID + 1))) as [Hle | _]; [lia |].
  cbn. repeat split. apply lookup_insert_eq.
Qed.

End ReceiveFacts.

Section WindowFacts.

Context {W : Type}.
Variable h : forall X : Type, extE X -> W -> X * W.
Variable wire_ReadBinary : list Byte.byte -> Z -> PexMessage * option error.

Implicit Types (r : PEXReactor) (s : State W) (src : Peer).

(** X5. Whatever the message and whatever the answers of the collaborators,
    [Receive] only logs, asks the book for a selection, replies to the sender
    with an Addrs message on the PEX channel, or calls [AddAddress] with the
    sender's address as source.  In particular it never sends a Request,
    never sends to another peer, never dials and never marks an attempt. *)
Theorem Receive_calls r (chID : Byte.byte) src (msgBytes : list Byte.byte) s :
  Forall (event_ok (Receive_call src))
         (run h (Receive wire_ReadBinary r chID src msgBytes) s).2.
Proof. apply run_only_calls, only_calls_Receive. Qed.

(** X6. While the sender's counter is below 65535, a call of [Receive] raises
    it by exactly one and leaves the entries of all other peers as they are,
    whether the message is dropped, fails to decode, panics or is
    processed. *)
Theorem Receive_counter_increment r (chID : Byte.byte) src
    (msgBytes : list Byte.byte) s :
  let peerID := addr_ID (NodeInfo_NetAddress src) in
  let s' := (run h (Receive wire_ReadBinary r chID src msgBytes) s).1.2 in
  0 <= count_of s peerID < 65535 ->
  count_of s' peerID = count_of s peerID + 1 /\
  (forall other : ID, other <> peerID ->
     msgCountByPeer s' !! other = msgCountByPeer s !! other).
Proof. intros peerID s' Hc. by apply Receive_counter_step. Qed.

(** X7. After any sequence of received messages the counter of a peer has
    grown by the number of messages that peer sent, provided the total stays
    within 65535; messages of other peers do not count against it. *)
Theorem window_counts r (msgs : list (Peer * list Byte.byte)) s (peerID : ID) :
  0 <= count_of s peerID ->
  count_of s peerID + Z.of_nat (sent_by peerID msgs) <= 65535 ->
  count_of (after_messages h wire_ReadBinary r msgs s) peerID =
    count_of s peerID + Z.of_nat (sent_by peerID msgs).
Proof. apply count_after_messages. Qed.

Lemma count_of_flushed (w : W) (peerID : ID) :
  count_of (mkState (∅ : gmap string Z) w) peerID = 0.
Proof. unfold count_of. cbn [msgCountByPeer]. by rewrite lookup_empty. Qed.

(** X8. In a window that started with flushed counters, once a peer has sent
    k messages with maxMsgCountByPeer <= k + 1 <= 65535, its next message is
    dropped: one log line, nothing decoded, nothing sent, the book not
    called.  With threshold 0 this is every message. *)
Theorem Receive_drops_over_limit r (chID : Byte.byte) src
    (msgBytes : list Byte.byte) (earlier : list (Peer * list Byte.byte)) (w : W) :
  let peerID := addr_ID (NodeInfo_NetAddress src) in
  let s := after_messages h wire_ReadBinary r earlier (mkState ∅ w) in
  let res := run h (Receive wire_ReadBinary r chID src msgBytes) s in
  maxMsgCountByPeer r <= Z.of_nat (sent_by peerID earlier) + 1 ->
  Z.of_nat (sent_by peerID earlier) + 1 <= 65535 ->
  res.1.1 = Done tt /\
  res.2 = [Ev (Logger_Error "Maximum number of messages reached for peer") tt].
Proof.
  intros peerID s res Hmax Hfit. subst res.
  assert (Hc : count_of s peerID = Z.of_nat (sent_by peerID earlier)).
  { subst s. rewrite count_after_messages; rewrite count_of_flushed; lia. }
  rewrite run_Receive. fold peerID. rewrite Hc.
  replace (uint16_wrap (Z.of_nat (sent_by peerID earlier) + 1))
    with (Z.of_nat (sent_by peerID earlier) + 1)
    by (unfold uint16_wrap; rewrite Z.mod_small; lia).
  destruct (Z.leb_spec (maxMsgCountByPeer r)
              (Z.of_nat (sent_by peerID earlier) + 1)) as [_ | Hlt]; [| lia].
  rewrite run_call. destruct (h unit _ _) as [[] w1]. split; reflexivity.
Qed.

(** X9. In a window that started with flushed counters, a message of a peer
    that has sent k messages with k + 1 < maxMsgCountByPeer is not dropped:
    [Receive] decodes and dispatches it, in the state where the counter of
    the peer is k + 1. *)
Theorem Receive_within_budget r (chID : Byte.byte) src
    (msgBytes : list Byte.byte) (earlier : list (Peer * list Byte.byte)) (w : W) :
  let peerID := addr_ID (NodeInfo_NetAddress src) in
  let s := after_messages h wire_ReadBinary r earlier (mkState ∅ w) in
  Z.of_nat (sent_by peerID earlier) + 1 < maxMsgCountByPeer r ->
  Z.of_nat (sent_by peerID earlier) + 1 <= 65535 ->
  run h (Receive wire_ReadBinary r chID src msgBytes) s =
    run h (Receive_dispatch wire_ReadBinary r src msgBytes) (counted s peerID) /\
  count_of (counted s peerID) peerID = Z.of_nat (sent_by peerID earlier) + 1.
Proof.
  intros peerID s Hmax Hfit.
  assert (Hc : count_of s peerID = Z.of_nat (sent_by peerID earlier)).
  { subst s. rewrite count_after_messages; rewrite count_of_flushed; lia. }
  assert (Hw : uint16_wrap (count_of s peerID + 1)
               = Z.of_nat (sent_by peerID earlier) + 1)
    by (rewrite Hc; unfold uint16_wrap; rewrite Z.mod_small; lia).
  split.
  - rewrite run_Receive. fold peerID. rewrite Hw.
    destruct (Z.leb_spec (maxMsgCountByPeer r)
                (Z.of_nat (sent_by peerID earlier) + 1)) as [Hle | _]; [lia |].
    reflexivity.
  - unfold count_of at 1, counted. cbn [msgCountByPeer].
    rewrite lookup_insert_eq. exact Hw.
Qed.

(** X10. What [Receive] does with a message depends on the counters only
    through the sender's own entry: in two states with the same collaborators
    and the same entry for the sender, it ends the same way, makes the same
    calls and leaves the collaborators in the same state, however many
    messages other peers have sent. *)
Theorem Receive_own_counter_only r (chID : Byte.byte) src
    (msgBytes : list Byte.byte) s s' :
  let peerID := addr_ID (NodeInfo_NetAddress src) in
  let res := run h (Receive wire_ReadBinary r chID src msgBytes) s in
  let res' := run h (Receive wire_ReadBinary r chID src msgBytes) s' in
  world s = world s' ->
  msgCountByPeer s !! peerID = msgCountByPeer s' !! peerID ->
  res.1.1 = res'.1.1 /\ res.2 = res'.2 /\ world res.1.2 = world res'.1.2.
Proof.
  intros peerID res res' Hw Hc. subst res res'.
  rewrite !run_Receive. fold peerID.
  assert (Hcount : count_of s peerID = count_of s' peerID)
    by (unfold count_of; by rewrite Hc).
  rewrite Hcount.
  destruct (maxMsgCountByPeer r <=? uint16_wrap (count_of s' peerID + 1)).
  - rewrite !run_call. unfold counted. cbn [world msgCountByPeer fst snd].
    rewrite Hw. repeat split.
  - destruct (run_store_free h
                (Receive_dispatch wire_ReadBinary r src msgBytes) (world s')
                (store_free_Receive_dispatch wire_ReadBinary r src msgBytes))
      as (o & w' & t & Hrun).
    unfold counted. rewrite Hw, !Hrun. repeat split.
Qed.

(** X11. A flush tick starts a new window: whatever was received before it,
    afterwards the counter of a peer is the number of messages it has sent
    since the tick (up to 65535). *)
Theorem flush_starts_new_window r (earlier later : list (Peer * list Byte.byte))
    s (peerID : ID) :
  let flushed :=
    (run h (flushMsgCountByPeer_tick r)
       (after_messages h wire_ReadBinary r earlier s)).1.2 in
  Z.of_nat (sent_by peerID later) <= 65535 ->
  count_of flushed peerID = 0 /\
  count_of (after_messages h wire_ReadBinary r later flushed) peerID =
    Z.of_nat (sent_by peerID later).
Proof.
  intros flushed Hfit. subst flushed. cbn [flushMsgCountByPeer_tick store run cmap_step fst snd].
  split; [apply count_of_flushed |].
  rewrite count_after_messages; rewrite count_of_flushed; lia.
Qed.

(** X12. [ReachedMaxMsgCountForPeer] panics for a peer without an entry, so
    for every peer right after a flush tick, also when the tick falls between
    the increment and the check; right after [IncrementMsgCountForPeer] for
    the same peer it returns whether the new count has reached the
    threshold. *)
Theorem ReachedMaxMsgCountForPeer_needs_entry r s (peerID : ID) :
  let nil_panic := Panicked "interface conversion: interface {} is nil, not uint16" in
  (run h (flushMsgCountByPeer_tick r;; ReachedMaxMsgCountForPeer r peerID) s).1.1
    = nil_panic /\
  (run h (IncrementMsgCountForPeer r peerID;; flushMsgCountByPeer_tick r;;
          ReachedMaxMsgCountForPeer r peerID) s).1.1 = nil_panic /\
  (run h (IncrementMsgCountForPeer r peerID;; ReachedMaxMsgCountForPeer r peerID) s).1.1
    = Done (maxMsgCountByPeer r <=? uint16_wrap (count_of s peerID + 1)) /\
  ((run h (ReachedMaxMsgCountForPeer r peerID) s).1.1 = nil_panic <->
   msgCountByPeer s !! peerID = None).
Proof.
  cbn zeta. repeat apply conj.
  - cbn. by rewrite lookup_empty.
  - unfold IncrementMsgCountForPeer. cbn. by rewrite lookup_empty.
  - rewrite run_bind, run_IncrementMsgCountForPeer.
    rewrite (run_ReachedMaxMsgCountForPeer h r peerID _
               (uint16_wrap (count_of s peerID + 1)))
      by apply lookup_insert_eq.
    reflexivity.
  - cbn. destruct (msgCountByPeer s !! peerID) as [c |]; cbn; intros H;
      [discriminate H | reflexivity].
  - cbn. intros ->. reflexivity.
Qed.

End WindowFacts.

Section EnsurePeersFacts.

Context {W : Type}.
Variable h : forall X : Type, extE X -> W -> X * W.
Variable wire_ReadBinary : list Byte.byte -> Z -> PexMessage * option error.

Implicit Types (r : PEXReactor) (s : State W) (p src : Peer).

Lemma only_calls_pickLoop r (n : nat) (d bias : Z) (toDial : gmap string NetAddress) :
  only_calls (ensurePeers_call r) (pickLoop n d bias toDial).
Proof.
  revert toDial. induction n as [| n IH]; intros toDial; [exact I |].
  cbn [pickLoop]. destruct (Z.of_nat (size toDial) <? d); [| exact I].
  simpl. split; [reflexivity |]. intros [a |]; [| apply IH].
  destruct (toDial !! addr_ID a); [apply IH |].
  simpl. split; [reflexivity |]. intros [|]; [apply IH |].
  simpl. split; [reflexivity |]. intros [|]; [apply IH |].
  simpl. split; [reflexivity |]. intros _. apply IH.
Qed.

Lemma only_calls_dialPicked r (items : list NetAddress) :
  only_calls (ensurePeers_call r) (dialPicked items).
Proof.
  induction items as [| a items IH]; [exact I |].
  simpl. split; [reflexivity |]. intros _. exact IH.
Qed.

Lemma only_calls_ensurePeers_askForMore r :
  only_calls (ensurePeers_call r) (ensurePeers_askForMore r).
Proof.
  unfold ensurePeers_askForMore. simpl. split; [reflexivity |].
  intros [|]; [| exact I]. simpl. split; [reflexivity |]. intros peers.
  destruct (0 <? Z.of_nat (length peers)); [| exact I].
  simpl. split; [reflexivity |]. intros rnd.
  destruct (Z.rem rnd (Z.of_nat (length peers)) <? 0); [exact I |].
  destruct (peers !! Z.to_nat (Z.rem rnd (Z.of_nat (length peers)))); [| exact I].
  simpl. split; [reflexivity |]. intros _. split; [reflexivity |]. intros _. exact I.
Qed.

Lemma only_calls_ensurePeers r : only_calls (ensurePeers_call r) (ensurePeers r).
Proof.
  unfold ensurePeers. simpl. split; [reflexivity |]. intros [[o i] d].
  simpl. split; [reflexivity |]. intros _.
  destruct (_ <=? 0); [exact I |].
  apply only_calls_bind; [apply only_calls_pickLoop |]. intros toDial.
  unfold ensurePeers_finish.
  apply only_calls_bind; [apply only_calls_dialPicked |]. intros _.
  apply only_calls_bind; [apply only_calls_ensurePeers_askForMore |]. intros _.
  unfold ensurePeers_dialSeeds. destruct (_ =? 0); [| exact I].
  simpl. split; [reflexivity |]. intros _. split; [| intros _; exact I].
  rewrite bool_decide_eq_true_2 by reflexivity. reflexivity.
Qed.

(** What the request for more addresses sends: nothing, or one Request on the
    PEX channel to a peer of the list the switch returned, after the book
    said that it needs more addresses. *)
Lemma ensurePeers_askForMore_sends r s :
  let t := (run h (ensurePeers_askForMore r) s).2 in
  sends t = [] \/
  exists peers p,
    sends t = [(p, PexChannel, pexRequestMessage)] /\ p ∈ peers /\
    Ev Book_NeedMoreAddrs true ∈ t /\ Ev Switch_Peers_List peers ∈ t.
Proof.
  unfold ensurePeers_askForMore. rewrite run_bind, run_call.
  destruct (h bool Book_NeedMoreAddrs (world s)) as [need w1]. cbn [fst snd].
  destruct need; [| by left].
  rewrite run_bind, run_call. cbn [msgCountByPeer world].
  destruct (h _ Switch_Peers_List w1) as [peers w2]. cbn [fst snd].
  destruct (0 <? Z.of_nat (length peers)); [| by left].
  rewrite run_bind, run_call. cbn [msgCountByPeer world].
  destruct (h Z rand_Int w2) as [rnd w3]. cbn [fst snd].
  destruct (Z.rem rnd (Z.of_nat (length peers)) <? 0); [by left |].
  destruct (peers !! Z.to_nat (Z.rem rnd (Z.of_nat (length peers))))
    as [peer |] eqn:Hpeer; [| by left].
  rewrite run_bind, run_call. cbn [msgCountByPeer world].
  destruct (h unit (Logger_Info _) w3) as [[] w4]. cbn [fst snd].
  unfold RequestPEX. rewrite run_bind, run_call. cbn [msgCountByPeer world].
  destruct (h bool (Peer_Send peer PexChannel pexRequestMessage) w4) as [sent w5].
  cbn [fst snd run app]. right. exists peers, peer.
  split; [reflexivity |]. split; [by eapply list_elem_of_lookup_2 |].
  split; [apply list_elem_of_here |]. apply list_elem_of_further, list_elem_of_here.
Qed.

(** The shape of every run of [ensurePeers], whatever the switch answers. *)
Lemma run_ensurePeers_shape r s :
  exists out w' t_rest,
    run h (ensurePeers r) s =
      (out, mkState (msgCountByPeer s) w',
       Ev Switch_NumPeers (h _ Switch_NumPeers (world s)).1 ::
       Ev (Logger_Info "Ensure peers") tt :: t_rest) /\
    (rand_nonneg h -> out = Done tt) /\
    (t_rest = [] \/
     exists (n : nat) (d bias : Z) (toDial : gmap string NetAddress)
            (t_loop : list Event) (w_ask : W) (b : bool),
       loop_post n d bias ∅ toDial t_loop /\
       t_rest = t_loop ++ dial_events (snd <$> map_to_list toDial) ++
                (run h (ensurePeers_askForMore r)
                   (mkState (msgCountByPeer s) w_ask)).2 ++
                seeds_trace r b).
Proof.
  unfold ensurePeers. rewrite run_bind, run_call.
  destruct (h _ Switch_NumPeers (world s)) as [[[o i] d] w1]. cbn [fst snd].
  rewrite run_bind, run_call. cbn [msgCountByPeer world].
  destruct (h unit (Logger_Info "Ensure peers") w1) as [[] w2]. cbn [fst snd].
  set (numToDial := int_wrap (minNumOutboundPeers - int_wrap (o + d))).
  destruct (numToDial <=? 0).
  { exists (Done tt), w2, []. cbn [run app]. repeat split; auto. }
  rewrite run_bind.
  destruct (run_pickLoop h (Z.to_nat (int_wrap (numToDial * 3))) numToDial
              (newBias o) ∅ (mkState (msgCountByPeer s) w2) (map_Forall_empty _))
    as (toDial & w3 & t_loop & -> & Hpost).
  cbn [msgCountByPeer]. unfold ensurePeers_finish. rewrite run_bind.
  destruct (run_dialPicked h (snd <$> map_to_list toDial)
              (mkState (msgCountByPeer s) w3)) as [w4 ->].
  cbn [msgCountByPeer]. rewrite run_bind.
  destruct (run_ensurePeers_askForMore h r (mkState (msgCountByPeer s) w4))
    as (o_ask & w5 & t_ask & Hask & _ & _ & _ & _ & Hdone).
  assert (Ht_ask : (run h (ensurePeers_askForMore r)
                      (mkState (msgCountByPeer s) w4)).2 = t_ask)
    by (by rewrite Hask).
  rewrite Hask. cbn [msgCountByPeer].
  destruct o_ask as [[] | m].
  - unfold ensurePeers_dialSeeds.
    destruct (_ =? 0).
    + rewrite run_bind, run_call. cbn [msgCountByPeer world].
      destruct (h unit (Logger_Info _) w5) as [[] w6]. cbn [fst snd].
      rewrite run_call. cbn [msgCountByPeer world].
      destruct (h unit (Switch_DialPeersAsync _ _) w6) as [[] w7]. cbn [fst snd].
      exists (Done tt), w7, (t_loop ++ dial_events (snd <$> map_to_list toDial) ++
                             t_ask ++ seeds_trace r true).
      split; [reflexivity |]. split; [done |].
      right. exists (Z.to_nat (int_wrap (numToDial * 3))), numToDial, (newBias o),
        toDial, t_loop, w4, true. by rewrite Ht_ask.
    + exists (Done tt), w5, (t_loop ++ dial_events (snd <$> map_to_list toDial) ++
                             t_ask ++ seeds_trace r false).
      cbn [run seeds_trace]. rewrite !app_nil_r.
      split; [reflexivity |]. split; [done |].
      right. exists (Z.to_nat (int_wrap (numToDial * 3))), numToDial, (newBias o),
        toDial, t_loop, w4, false.
      cbn [seeds_trace]. by rewrite Ht_ask, !app_nil_r.
  - exists (Panicked m), w5, (t_loop ++ dial_events (snd <$> map_to_list toDial) ++
                              t_ask ++ seeds_trace r false).
    cbn [seeds_trace]. rewrite !app_nil_r.
    split; [reflexivity |]. split; [exact Hdone |].
    right. exists (Z.to_nat (int_wrap (numToDial * 3))), numToDial, (newBias o),
        toDial, t_loop, w4, false.
    cbn [seeds_trace]. by rewrite Ht_ask, !app_nil_r.
Qed.

Lemma ensurePeers_call_no_mutation r (t : list Event) :
  Forall (event_ok (ensurePeers_call r)) t ->
  book_mutations t = [] /\ added t = [].
Proof.
  induction 1 as [| [X e x] t Hev _ [IH1 IH2]]; [done |].
  unfold book_mutations, added in *.
  destruct e; simpl in Hev; try discriminate Hev;
    (rewrite filter_cons_False by (simpl; congruence)); cbn [omap list_omap added_of];
    by rewrite ?IH2.
Qed.

Lemma declared_channel_sends r (t : list Event) :
  Forall (event_ok (on_declared_channel r)) t ->
  Forall (fun m => m.1.2 ∈ ch_ID <$> GetChannels r) (sends t).
Proof.
  induction 1 as [| [X e x] t Hev _ IH]; [constructor |].
  unfold sends in *.
  destruct e; cbn [omap list_omap sent_of]; try exact IH.
  constructor; [| exact IH].
  simpl in Hev. rewrite orb_false_r in Hev.
  apply Byte.byte_dec_bl in Hev. subst chID. simpl. apply list_elem_of_here.
Qed.

Lemma Receive_call_declared r src (ev : Event) :
  event_ok (Receive_call src) ev -> event_ok (on_declared_channel r) ev.
Proof.
  destruct ev as [X e x]. destruct e; simpl; try done.
  destruct msg; try done. intros [Hch _]%andb_prop.
  apply Byte.byte_dec_bl in Hch. by subst chID.
Qed.

Lemma ensurePeers_call_declared r (ev : Event) :
  event_ok (ensurePeers_call r) ev -> event_ok (on_declared_channel r) ev.
Proof.
  destruct ev as [X e x]. destruct e; simpl; try done.
  destruct msg; try done. intros Hch.
  apply Byte.byte_dec_bl in Hch. by subst chID.
Qed.

Lemma dial_events_no_sends (items : list NetAddress) :
  sends (dial_events items) = [].
Proof. induction items as [| a items IH]; [done | exact IH]. Qed.

Lemma selected_in_picks (t : list Event) (bias : Z) (a : NetAddress) :
  selected_in t bias a -> (bias, Some a) ∈ picks t.
Proof.
  intros (t1 & t2 & ->). unfold picks. rewrite !omap_app.
  apply elem_of_app. right. apply elem_of_app. left.
  apply list_elem_of_here.
Qed.

(** X13. In a run of [ensurePeers] at most one message is sent, and if one is
    sent it is a Request on the PEX channel to a peer of the list the switch
    returned, after the book has said that it needs more addresses. *)
Theorem ensurePeers_requests r s :
  let t := (run h (ensurePeers r) s).2 in
  sends t = [] \/
  exists peers p,
    sends t = [(p, PexChannel, pexRequestMessage)] /\ p ∈ peers /\
    Ev Book_NeedMoreAddrs true ∈ t /\ Ev Switch_Peers_List peers ∈ t.
Proof.
  destruct (run_ensurePeers_shape r s)
    as (out & w' & t_rest & Hrun & _ & [-> | Hparts]); rewrite Hrun; cbn [snd].
  { by left. }
  destruct Hparts as (n & d & bias & toDial & t_loop & w_ask & b & Hpost & ->).
  destruct Hpost as (_ & _ & _ & _ & _ & _ & _ & _ & _ & Hs1 & _).
  set (t_ask := (run h (ensurePeers_askForMore r)
                   (mkState (msgCountByPeer s) w_ask)).2).
  assert (Hsends : sends (Ev Switch_NumPeers (h _ Switch_NumPeers (world s)).1
                          :: Ev (Logger_Info "Ensure peers") tt
                          :: t_loop ++ dial_events (snd <$> map_to_list toDial)
                             ++ t_ask ++ seeds_trace r b) = sends t_ask).
  { unfold sends in *. cbn [omap list_omap sent_of].
    rewrite !omap_app, Hs1.
    pose proof (dial_events_no_sends (snd <$> map_to_list toDial)) as Hd.
    unfold sends in Hd.
    assert (Hsd : omap sent_of (seeds_trace r b) = []) by (by destruct b).
    by rewrite Hd, Hsd, app_nil_r. }
  rewrite Hsends.
  destruct (ensurePeers_askForMore_sends r (mkState (msgCountByPeer s) w_ask))
    as [Hnone | (peers & p & Hone & Hp & Hneed & Hlist)];
    fold t_ask in Hnone || fold t_ask in Hone, Hneed, Hlist.
  { by left. }
  right. exists peers, p. split; [exact Hone |]. split; [exact Hp |].
  split; do 2 apply list_elem_of_further; apply elem_of_app; right;
    apply elem_of_app; right; apply elem_of_app; by left.
Qed.

(** X14. Whatever the collaborators answer, a run of [ensurePeers] only
    queries the switch and the book, draws addresses, starts dial goroutines,
    sends a Request and hands the configured seeds, non-persistent, to
    [DialPeersAsync]; it never changes the address book itself, leaves the
    message counters as they are, and returns without a panic as long as
    [rand.Int] is non-negative. *)
Theorem ensurePeers_discipline r s :
  let res := run h (ensurePeers r) s in
  Forall (event_ok (ensurePeers_call r)) res.2 /\
  book_mutations res.2 = [] /\ added res.2 = [] /\
  msgCountByPeer res.1.2 = msgCountByPeer s /\
  (rand_nonneg h -> res.1.1 = Done tt).
Proof.
  intros res.
  assert (Hcalls : Forall (event_ok (ensurePeers_call r)) res.2)
    by apply run_only_calls, only_calls_ensurePeers.
  destruct (ensurePeers_call_no_mutation r _ Hcalls) as [Hb Ha].
  split; [exact Hcalls |]. split; [exact Hb |]. split; [exact Ha |].
  subst res.
  destruct (run_ensurePeers_shape r s) as (out & w' & t_rest & -> & Hdone & _).
  split; [reflexivity | exact Hdone].
Qed.

(** X15. When peers are missing and every draw of a run comes back nil (an
    empty address book), [ensurePeers] uses up all 3 d attempts and starts no
    dial goroutine. *)
Theorem ensurePeers_empty_book r s (o i d : Z) :
  (h _ Switch_NumPeers (world s)).1 = (o, i, d) ->
  peer_counts o i d ->
  let deficit := minNumOutboundPeers - (o + d) in
  0 < deficit ->
  let t := (run h (ensurePeers r) s).2 in
  Forall (fun pk => pk.2 = None) (picks t) ->
  dials t = [] /\ Z.of_nat (length (picks t)) = 3 * deficit.
Proof.
  intros Hnum Hcounts deficit Hpos t. subst t.
  destruct (run_ensurePeers_dialing h r s o i d Hnum Hcounts ltac:(subst deficit; lia))
    as (out & s' & toDial & t_loop & t_ask & reached & -> & Hpost & Hp & Hdl & Hsd & _).
  fold deficit in Hpost. cbn [snd].
  destruct Hpost as (_ & _ & _ & _ & _ & Hfull & Hsel & Hd1 & Hs1 & _).
  destruct (ensurePeers_trace_observed r (o, i, d) t_loop t_ask
              (snd <$> map_to_list toDial)
              (reached && (o + i + d + Z.of_nat (size toDial) =? 0))
              Hd1 Hs1 Hp Hdl Hsd) as (-> & -> & _).
  intros Hnil.
  assert (Hempty : toDial = ∅).
  { apply map_empty. intros k. destruct (toDial !! k) as [a |] eqn:Hk; [| done].
    destruct (Hsel k a Hk) as [He | Hin]; [by rewrite lookup_empty in He |].
    apply selected_in_picks in Hin.
    rewrite Forall_forall in Hnil. by specialize (Hnil _ Hin). }
  subst toDial. rewrite map_to_list_empty. split; [reflexivity |].
  rewrite map_size_empty in Hfull. rewrite Hfull by lia. lia.
Qed.

(** X16. Every message that [AddPeer], [Receive] or [ensurePeers] sends goes
    over a channel that [GetChannels] declares. *)
Theorem sends_on_declared_channels r p src (chID : Byte.byte)
    (msgBytes : list Byte.byte) s :
  let declared := fun m : Peer * Byte.byte * PexMessage =>
                    m.1.2 ∈ ch_ID <$> GetChannels r in
  Forall declared (sends (run h (AddPeer r p) s).2) /\
  Forall declared (sends (run h (Receive wire_ReadBinary r chID src msgBytes) s).2) /\
  Forall declared (sends (run h (ensurePeers r) s).2).
Proof.
  intros declared. repeat apply conj; apply declared_channel_sends.
  - apply run_only_calls. unfold AddPeer.
    destruct (IsOutbound p); simpl; [| auto].
    split; [reflexivity |]. intros [|]; simpl; auto.
  - eapply Forall_impl; [apply run_only_calls, only_calls_Receive |].
    apply Receive_call_declared.
  - eapply Forall_impl; [apply run_only_calls, only_calls_ensurePeers |].
    apply ensurePeers_call_declared.
Qed.


(** X18. When [BaseReactor.OnStart] fails, [OnStart] returns that error at
    once: the address book is not started and no goroutine is spawned. *)
Theorem OnStart_base_failure_aborts r s (e : error) :
  (h _ BaseReactor_OnStart (world s)).1 = Some e ->
  let res := run h (OnStart r) s in
  res.1.1 = Done (Some e) /\
  res.2 = [Ev BaseReactor_OnStart (Some e)] /\
  spawned res.2 = [] /\ book_mutations res.2 = [].
Proof.
  intros Hbase res. subst res.
  destruct (OnStart_base_failure h r s e Hbase) as [-> ->]. by repeat split.
Qed.

End EnsurePeersFacts.

(* ------------------------------------------------------------------------- *)
(** ** The further properties at concrete inputs *)

(** A Request from peer A to a node whose book selects [C, nil, D]. *)
Lemma Receive_Request_reply_witness :
  uint16_wrap (count_of (fresh hungry_script) "peerA" + 1)
    < maxMsgCountByPeer reactor0 /\
  toy_ReadBinary [msgTypeRequest] maxPexMessageSize = (pexRequestMessage, None) /\
  sends (run script_handler
           (Receive toy_ReadBinary reactor0 PexChannel peerA [msgTypeRequest])
           (fresh hungry_script)).2 =
    [(peerA, PexChannel, pexAddrsMessage [Some addrC; None; Some addrD])].
Proof.
  assert (Hlim : uint16_wrap (count_of (fresh hungry_script)
                                (addr_ID (NodeInfo_NetAddress peerA)) + 1)
                 < maxMsgCountByPeer reactor0) by (vm_compute; reflexivity).
  assert (Hdec : toy_ReadBinary [msgTypeRequest] maxPexMessageSize
                 = (pexRequestMessage, None)) by reflexivity.
  split; [exact Hlim |]. split; [exact Hdec |].
  destruct (Receive_Request_reply script_handler toy_ReadBinary reactor0 PexChannel
              msgTypeRequest peerA [] (fresh hungry_script) Hlim Hdec)
    as (_ & Hsent & _).
  exact Hsent.
Defined.

(** A message with the unregistered tag 0x07. *)
Lemma Receive_decode_error_witness :
  uint16_wrap (count_of (fresh idle_script) "peerA" + 1)
    < maxMsgCountByPeer reactor0 /\
  toy_ReadBinary [Byte.x07] maxPexMessageSize
    = (pexOtherValue, Some (ErrOther "unknown type byte")) /\
  (run script_handler
     (Receive toy_ReadBinary reactor0 PexChannel peerA [Byte.x07])
     (fresh idle_script)).2 = [Ev (Logger_Error "Error decoding message") tt].
Proof.
  assert (Hlim : uint16_wrap (count_of (fresh idle_script)
                                (addr_ID (NodeInfo_NetAddress peerA)) + 1)
                 < maxMsgCountByPeer reactor0) by (vm_compute; reflexivity).
  assert (Hdec : toy_ReadBinary [Byte.x07] maxPexMessageSize
                 = (pexOtherValue, Some (ErrOther "unknown type byte")))
    by reflexivity.
  split; [exact Hlim |]. split; [exact Hdec |].
  destruct (Receive_decode_error script_handler toy_ReadBinary reactor0 PexChannel
              Byte.x07 peerA [] (fresh idle_script) _ _ Hlim Hdec) as (_ & Htrace).
  exact Htrace.
Defined.

(** The one-byte message 0x00, read as a nil value. *)
Lemma Receive_unknown_variant_witness :
  uint16_wrap (count_of (fresh idle_script) "peerA" + 1)
    < maxMsgCountByPeer reactor0 /\
  nil_tag_ReadBinary [Byte.x00] maxPexMessageSize = (pexOtherValue, None) /\
  (run script_handler
     (Receive nil_tag_ReadBinary reactor0 PexChannel peerA [Byte.x00])
     (fresh idle_script)).2 =
    [Ev (Logger_Debug "Received message") tt;
     Ev (Logger_Error "Unknown message type") tt].
Proof.
  assert (Hlim : uint16_wrap (count_of (fresh idle_script)
                                (addr_ID (NodeInfo_NetAddress peerA)) + 1)
                 < maxMsgCountByPeer reactor0) by (vm_compute; reflexivity).
  assert (Hdec : nil_tag_ReadBinary [Byte.x00] maxPexMessageSize
                 = (pexOtherValue, None)) by reflexivity.
  split; [exact Hlim |]. split; [exact Hdec |].
  destruct (Receive_unknown_variant script_handler nil_tag_ReadBinary reactor0
              PexChannel Byte.x00 peerA [] (fresh idle_script) Hlim Hdec)
    as (_ & Htrace).
  exact Htrace.
Defined.

(** The empty message as the first message of a window. *)
Lemma Receive_empty_message_witness :
  uint16_wrap (count_of (fresh idle_script) "peerA" + 1)
    < maxMsgCountByPeer reactor0 /\
  (run script_handler (Receive toy_ReadBinary reactor0 PexChannel peerA [])
     (fresh idle_script)).1.1 = Panicked "index out of range".
Proof.
  assert (Hlim : uint16_wrap (count_of (fresh idle_script)
                                (addr_ID (NodeInfo_NetAddress peerA)) + 1)
                 < maxMsgCountByPeer reactor0) by (vm_compute; reflexivity).
  split; [exact Hlim |].
  destruct (Receive_empty_message script_handler toy_ReadBinary reactor0 PexChannel
              peerA (fresh idle_script) Hlim) as (Hpanic & _).
  exact Hpanic.
Defined.

(** The second message of peer A in the window of [after_first_message]. *)
Lemma Receive_counter_increment_witness :
  0 <= count_of after_first_message "peerA" < 65535 /\
  count_of (run script_handler
              (Receive toy_ReadBinary reactor0 PexChannel peerA [Byte.x07])
              after_first_message).1.2 "peerA"
    = count_of after_first_message "peerA" + 1.
Proof.
  assert (Hc : 0 <= count_of after_first_message
                      (addr_ID (NodeInfo_NetAddress peerA)) < 65535)
    by (vm_compute; split; [discriminate | reflexivity]).
  split; [exact Hc |].
  destruct (Receive_counter_increment script_handler toy_ReadBinary reactor0
              PexChannel peerA [Byte.x07] after_first_message Hc) as (Hup & _).
  exact Hup.
Defined.

(** Two messages from A and one from B in a fresh window. *)
Lemma window_counts_witness :
  let msgs := [request_from peerA; request_from peerB; request_from peerA] in
  0 <= count_of (fresh idle_script) "peerA" /\
  count_of (fresh idle_script) "peerA" + Z.of_nat (sent_by "peerA" msgs) <= 65535 /\
  count_of (after_messages script_handler toy_ReadBinary reactor0 msgs
              (fresh idle_script)) "peerA" = 2.
Proof.
  intros msgs.
  assert (H0 : 0 <= count_of (fresh idle_script) "peerA") by (vm_compute; discriminate).
  assert (Hfit : count_of (fresh idle_script) "peerA"
                 + Z.of_nat (sent_by "peerA" msgs) <= 65535)
    by (vm_compute; discriminate).
  split; [exact H0 |]. split; [exact Hfit |].
  rewrite (window_counts script_handler toy_ReadBinary reactor0 msgs
             (fresh idle_script) "peerA" H0 Hfit).
  vm_compute. reflexivity.
Defined.

(** Threshold 2: the third message of peer A is dropped as well. *)
Lemma Receive_drops_over_limit_witness :
  let earlier := [request_from peerA; request_from peerB; request_from peerA] in
  maxMsgCountByPeer reactor_max2 <= Z.of_nat (sent_by "peerA" earlier) + 1 /\
  Z.of_nat (sent_by "peerA" earlier) + 1 <= 65535 /\
  (run script_handler
     (Receive toy_ReadBinary reactor_max2 PexChannel peerA [msgTypeRequest])
     (after_messages script_handler toy_ReadBinary reactor_max2 earlier
        (fresh idle_script))).2 =
    [Ev (Logger_Error "Maximum number of messages reached for peer") tt].
Proof.
  intros earlier.
  assert (Hmax : maxMsgCountByPeer reactor_max2
                 <= Z.of_nat (sent_by (addr_ID (NodeInfo_NetAddress peerA)) earlier) + 1)
    by (vm_compute; discriminate).
  assert (Hfit : Z.of_nat (sent_by (addr_ID (NodeInfo_NetAddress peerA)) earlier) + 1
                 <= 65535) by (vm_compute; discriminate).
  split; [exact Hmax |]. split; [exact Hfit |].
  destruct (Receive_drops_over_limit script_handler toy_ReadBinary reactor_max2
              PexChannel peerA [msgTypeRequest] earlier idle_script Hmax Hfit)
    as (_ & Htrace).
  exact Htrace.
Defined.

(** Default threshold: the second message of peer A is dispatched. *)
Lemma Receive_within_budget_witness :
  let earlier := [request_from peerA; request_from peerB] in
  let s := after_messages script_handler toy_ReadBinary reactor0 earlier
             (fresh idle_script) in
  Z.of_nat (sent_by "peerA" earlier) + 1 < maxMsgCountByPeer reactor0 /\
  Z.of_nat (sent_by "peerA" earlier) + 1 <= 65535 /\
  count_of (counted s "peerA") "peerA" = Z.of_nat (sent_by "peerA" earlier) + 1.
Proof.
  intros earlier s.
  assert (Hmax : Z.of_nat (sent_by (addr_ID (NodeInfo_NetAddress peerA)) earlier) + 1
                 < maxMsgCountByPeer reactor0) by (vm_compute; reflexivity).
  assert (Hfit : Z.of_nat (sent_by (addr_ID (NodeInfo_NetAddress peerA)) earlier) + 1
                 <= 65535) by (vm_compute; discriminate).
  split; [exact Hmax |]. split; [exact Hfit |].
  destruct (Receive_within_budget script_handler toy_ReadBinary reactor0 PexChannel
              peerA [msgTypeRequest] earlier idle_script Hmax Hfit) as (_ & Hc).
  exact Hc.
Defined.

(** Peer A's Request is answered the same whether or not peer B has
    exhausted its counter. *)
Lemma Receive_own_counter_only_witness :
  world (fresh idle_script) = world other_peer_saturated /\
  msgCountByPeer (fresh idle_script) !! "peerA"
    = msgCountByPeer other_peer_saturated !! "peerA" /\
  (run script_handler
     (Receive toy_ReadBinary reactor0 PexChannel peerA [msgTypeRequest])
     (fresh idle_script)).2 =
  (run script_handler
     (Receive toy_ReadBinary reactor0 PexChannel peerA [msgTypeRequest])
     other_peer_saturated).2.
Proof.
  assert (Hc : msgCountByPeer (fresh idle_script) !! addr_ID (NodeInfo_NetAddress peerA)
               = msgCountByPeer other_peer_saturated
                   !! addr_ID (NodeInfo_NetAddress peerA))
    by (vm_compute; reflexivity).
  split; [reflexivity |]. split; [exact Hc |].
  destruct (Receive_own_counter_only script_handler toy_ReadBinary reactor0
              PexChannel peerA [msgTypeRequest] (fresh idle_script)
              other_peer_saturated eq_refl Hc) as (_ & Htrace & _).
  exact Htrace.
Defined.

(** A saturated sender, a flush tick, then one more message. *)
Lemma flush_starts_new_window_witness :
  let later := [request_from peerA] in
  Z.of_nat (sent_by "peerA" later) <= 65535 /\
  count_of
    (after_messages script_handler toy_ReadBinary reactor0 later
       (run script_handler (flushMsgCountByPeer_tick reactor0)
          (after_messages script_handler toy_ReadBinary reactor0 [] saturated)).1.2)
    "peerA" = Z.of_nat (sent_by "peerA" later).
Proof.
  intros later.
  assert (Hfit : Z.of_nat (sent_by "peerA" later) <= 65535)
    by (vm_compute; discriminate).
  split; [exact Hfit |].
  destruct (flush_starts_new_window script_handler toy_ReadBinary reactor0 []
              later saturated "peerA" Hfit) as (_ & Hc).
  exact Hc.
Defined.

(** An isolated node: the run returns and the book is not changed. *)
Lemma ensurePeers_discipline_witness :
  rand_nonneg script_handler /\
  (run script_handler (ensurePeers reactor0) (fresh idle_script)).1.1 = Done tt /\
  book_mutations (run script_handler (ensurePeers reactor0) (fresh idle_script)).2 = [].
Proof.
  assert (Hrand : rand_nonneg script_handler) by (intros w; simpl; lia).
  split; [exact Hrand |].
  destruct (ensurePeers_discipline script_handler reactor0 (fresh idle_script))
    as (_ & Hb & _ & _ & Hdone).
  split; [exact (Hdone Hrand) | exact Hb].
Defined.

(** An isolated node with an empty book: thirty draws, no dial. *)
Lemma ensurePeers_empty_book_witness :
  let t := (run script_handler (ensurePeers reactor0) (fresh idle_script)).2 in
  (script_handler _ Switch_NumPeers idle_script).1 = (0, 0, 0) /\
  peer_counts 0 0 0 /\ 0 < minNumOutboundPeers - (0 + 0) /\
  Forall (fun pk => pk.2 = None) (picks t) /\
  dials t = [] /\ Z.of_nat (length (picks t)) = 3 * (minNumOutboundPeers - (0 + 0)).
Proof.
  intros t.
  assert (Hcounts : peer_counts 0 0 0)
    by (unfold peer_counts, minNumOutboundPeers, max_int; lia).
  assert (Hpos : 0 < minNumOutboundPeers - (0 + 0))
    by (unfold minNumOutboundPeers; lia).
  assert (Hnil : Forall (fun pk : Z * option NetAddress => pk.2 = None) (picks t))
    by (vm_compute; repeat constructor).
  split; [reflexivity |]. split; [exact Hcounts |]. split; [exact Hpos |].
  split; [exact Hnil |].
  exact (ensurePeers_empty_book script_handler reactor0 (fresh idle_script) 0 0 0
           eq_refl Hcounts Hpos Hnil).
Defined.

(** A node whose base reactor refuses to start. *)
Lemma OnStart_base_failure_aborts_witness :
  (script_handler _ BaseReactor_OnStart broken_base_script).1
    = Some (ErrOther "base failed") /\
  (run script_handler (OnStart reactor0) (fresh broken_base_script)).1.1
    = Done (Some (ErrOther "base failed")) /\
  spawned (run script_handler (OnStart reactor0) (fresh broken_base_script)).2 = [].
Proof.
  split; [reflexivity |].
  destruct (OnStart_base_failure_aborts script_handler reactor0
              (fresh broken_base_script) (ErrOther "base failed") eq_refl)
    as (Hout & _ & Hsp & _).
  split; [exact Hout | exact Hsp].
Defined.

Section WrapFacts.

Context {W : Type}.
Variable h : forall X : Type, extE X -> W -> X * W.
Variable wire_ReadBinary : list Byte.byte -> Z -> PexMessage * option error.

(** X19. A message from a sender whose counter stands at 65535 is counted as
    number 0 of the window: with any threshold of at least 1 it is not
    dropped but decoded and dispatched. *)
Theorem Receive_after_wrap (r : PEXReactor) (chID : Byte.byte) (src : Peer)
    (msgBytes : list Byte.byte) (s : State W) :
  let peerID := addr_ID (NodeInfo_NetAddress src) in
  count_of s peerID = 65535 ->
  1 <= maxMsgCountByPeer r ->
  run h (Receive wire_ReadBinary r chID src msgBytes) s =
    run h (Receive_dispatch wire_ReadBinary r src msgBytes) (counted s peerID) /\
  count_of (counted s peerID) peerID = 0.
Proof.
  intros peerID Hc Hmax. split.
  - rewrite run_Receive. fold peerID. rewrite Hc.
    change (uint16_wrap (65535 + 1)) with 0.
    destruct (Z.leb_spec (maxMsgCountByPeer r) 0) as [Hle | _]; [lia | reflexivity].
  - unfold count_of at 1, counted. cbn [msgCountByPeer].
    rewrite lookup_insert_eq, Hc. reflexivity.
Qed.

End WrapFacts.

(** The 65536th Request of a window is answered again. *)
Lemma Receive_after_wrap_witness :
  count_of saturated "peerA" = 65535 /\ 1 <= maxMsgCountByPeer reactor0 /\
  run script_handler
    (Receive toy_ReadBinary reactor0 PexChannel peerA [msgTypeRequest]) saturated =
  run script_handler
    (Receive_dispatch toy_ReadBinary reactor0 peerA [msgTypeRequest])
    (counted saturated "peerA").
Proof.
  assert (Hc : count_of saturated (addr_ID (NodeInfo_NetAddress peerA)) = 65535)
    by (vm_compute; reflexivity).
  assert (Hmax : 1 <= maxMsgCountByPeer reactor0) by (vm_compute; discriminate).
  split; [exact Hc |]. split; [exact Hmax |].
  destruct (Receive_after_wrap script_handler toy_ReadBinary reactor0 PexChannel
              peerA [msgTypeRequest] saturated Hc Hmax) as (Hrun & _).
  exact Hrun.
Defined.
